(** * Engage conversation validator: analysis engine and aggregator

    A shallow embedding of [conversation_validator.py]
    (class [ConversationValidator]): the per-conversation analyzer
    [_analyze_conversation] with its helpers
    [_calculate_semantic_similarity], [_extract_information_type],
    [_analyze_tone], [_check_compliance], and the batch aggregator
    [generate_report] with [_generate_recommendations].

    Modelling conventions.
    - Python [str] is [string]; [str.lower] is modelled on ASCII letters.
    - Python [int] is [Z]; [len] is [nat]; Python [float] is modelled by
      exact rationals [Q] (binary64 rounding is not represented).
    - Python [dict] is an insertion-ordered association list with unique
      keys ([dict_set] overwrites in place, otherwise appends).
    - A raised exception is the [Raise] branch of the [exc] monad.
    - The embedding model and the spaCy pipeline are the fields of the
      record [ConversationValidator] (the Python [self]). *)

From Stdlib Require Import List String Ascii Bool Arith ZArith QArith Lia.
From Stdlib Require Import DecimalString.
From Stdlib Require DecimalPos DecimalZ.
Import ListNotations.

Local Open Scope string_scope.
Local Open Scope list_scope.

(* ================================================================= *)
(** ** Exceptions *)

Inductive exn : Type :=
| StatisticsError (msg : string)
| KeyError (key : string)
| ValueError (msg : string)
| IndexError (msg : string)
| ServiceError (msg : string).

Inductive exc (A : Type) : Type :=
| Ok (a : A)
| Raise (e : exn).

Arguments Ok {A} a.
Arguments Raise {A} e.

Definition bind {A B : Type} (m : exc A) (k : A -> exc B) : exc B :=
  match m with
  | Ok a => k a
  | Raise e => Raise e
  end.

Notation "x <- m ;; k" := (bind m (fun x => k))
  (at level 61, m at next level, right associativity).

(** A comprehension [[f x for x in xs]] whose body may raise: the first
    exception, in iteration order, escapes. *)
Fixpoint mapM {A B : Type} (f : A -> exc B) (xs : list A) : exc (list B) :=
  match xs with
  | [] => Ok []
  | x :: xs' =>
      y <- f x ;;
      ys <- mapM f xs' ;;
      Ok (y :: ys)
  end.

(** A [for] loop threading an accumulator, whose body may raise. *)
Fixpoint foldM {A S : Type} (body : S -> A -> exc S) (xs : list A) (s : S)
  : exc S :=
  match xs with
  | [] => Ok s
  | x :: xs' =>
      s' <- body s x ;;
      foldM body xs' s'
  end.

(* ================================================================= *)
(** ** Strings *)

Definition lower_char (c : ascii) : ascii :=
  let n := nat_of_ascii c in
  if (65 <=? n)%nat && (n <=? 90)%nat then ascii_of_nat (n + 32) else c.

(** [str.lower()] *)
Fixpoint lower (s : string) : string :=
  match s with
  | EmptyString => EmptyString
  | String c s' => String (lower_char c) (lower s')
  end.

(** [needle in hay] on strings. *)
Fixpoint contains (hay needle : string) : bool :=
  prefix needle hay
  || match hay with
     | EmptyString => false
     | String _ hay' => contains hay' needle
     end.

(** [x in xs] on a list of strings. *)
Definition mem (x : string) (xs : list string) : bool :=
  existsb (String.eqb x) xs.

(** [sep.join(xs)] *)
Fixpoint join (sep : string) (xs : list string) : string :=
  match xs with
  | [] => ""
  | [x] => x
  | x :: xs' => x ++ sep ++ join sep xs'
  end.

(** [str(n)] for an integer. *)
Definition str_of_Z (n : Z) : string := NilZero.string_of_int (Z.to_int n).

(* ================================================================= *)
(** ** Dictionaries *)

Definition dict (V : Type) : Type := list (string * V).

(** [d.get(k)] *)
Fixpoint dict_get {V : Type} (k : string) (d : dict V) : option V :=
  match d with
  | [] => None
  | (k', v) :: d' => if String.eqb k k' then Some v else dict_get k d'
  end.

(** [d[k] = v] *)
Fixpoint dict_set {V : Type} (k : string) (v : V) (d : dict V) : dict V :=
  match d with
  | [] => [(k, v)]
  | (k', v') :: d' =>
      if String.eqb k k' then (k', v) :: d' else (k', v') :: dict_set k v d'
  end.

(** [k in d] *)
Definition dict_mem {V : Type} (k : string) (d : dict V) : bool :=
  match dict_get k d with Some _ => true | None => false end.

(** [d.values()] *)
Definition dict_values {V : Type} (d : dict V) : list V := map snd d.

(** [d.get(k, default)] *)
Definition dict_get_default {V : Type} (k : string) (default : V) (d : dict V)
  : V :=
  match dict_get k d with Some v => v | None => default end.

(** A dict display [{k1: v1, ...}] or comprehension: later duplicates
    overwrite. *)
Definition dict_of_list {V : Type} (kvs : list (string * V)) : dict V :=
  fold_left (fun d kv => dict_set (fst kv) (snd kv) d) kvs [].

(* ================================================================= *)
(** ** The [statistics] module and numeric formatting *)

(** [a < b] on numbers. *)
Definition Qltb (a b : Q) : bool := negb (Qle_bool b a).

(** [len(xs)] as a number. *)
Definition len {A : Type} (xs : list A) : Q := inject_Z (Z.of_nat (List.length xs)).

Definition Qsum (xs : list Q) : Q := fold_right Qplus 0%Q xs.

Definition no_data : exn :=
  StatisticsError "mean requires at least one data point".

(** [statistics.mean(xs)] *)
Definition statistics_mean (xs : list Q) : exc Q :=
  match xs with
  | [] => Raise no_data
  | _ :: _ => Ok (Qsum xs / len xs)%Q
  end.

(** [max(xs)] *)
Definition py_max (xs : list Z) : exc Z :=
  match xs with
  | [] => Raise (ValueError "max() arg is an empty sequence")
  | x :: xs' => Ok (fold_left Z.max xs' x)
  end.

(** Nearest integer to [q], ties to the even neighbour. *)
Definition round_half_even (q : Q) : Z :=
  let n := Qnum q in
  let d := Zpos (Qden q) in
  let fl := (n / d)%Z in
  let r2 := (2 * (n mod d))%Z in
  if (r2 <? d)%Z then fl
  else if (d <? r2)%Z then (fl + 1)%Z
  else if Z.even fl then fl else (fl + 1)%Z.

Definition two_digits (n : Z) : string :=
  str_of_Z (n / 10) ++ str_of_Z (n mod 10).

(** [f"{q:.2f}"] *)
Definition format_2f (q : Q) : string :=
  let h := Z.abs (round_half_even (q * 100)) in
  (if Qltb q 0 then "-" else "")
  ++ str_of_Z (h / 100) ++ "." ++ two_digits (h mod 100).

(* ================================================================= *)
(** ** Data model *)

(** One entry of [template.conversation_flow]. *)
Record TemplateTurn : Type := {
  turn : Z;
  user_input : string;
  expected_ai_themes : list string;
  required_elements : list string
}.

(** [template.validation_criteria]; an absent key reads as [[]]. *)
Record ValidationCriteria : Type := {
  information_capture : list string;
  tone_requirements : list string;
  prohibited_content : list string
}.

Record ConversationTemplate : Type := {
  case_type : string;
  practice_area : string;
  conversation_flow : list TemplateTurn;
  validation_criteria : ValidationCriteria
}.

(** One element of [conversation_data['conversation']] ([turn_data]). *)
Record TranscriptTurn : Type := {
  td_turn : Z;
  td_user_input : string;
  ai_response : string;
  response_time_ms : Z;
  td_timestamp : string
}.

(** The value returned by [_run_puppeteer_conversation]. *)
Record ConversationData : Type := {
  success : bool;
  conversation : list TranscriptTurn;
  cd_error : option string
}.

(** A value of [analysis['semantic_similarity']]. *)
Record TurnSimilarity : Type := {
  expected_themes : list string;
  similarity_scores : dict Q;
  avg_similarity : Q
}.

(** The value returned by [_extract_information_type]. *)
Record Extraction : Type := {
  entities_found : list string;
  keywords_found : list string;
  extraction_confidence : nat;
  extracted : bool
}.

(** A value of the dict returned by [_analyze_tone]. *)
Record ToneScore : Type := {
  indicators_found : list string;
  score : Q;
  meets_requirement : bool
}.

Record Compliance : Type := {
  violations : list string;
  is_compliant : bool
}.

Record Performance : Type := {
  avg_response_time_ms : Q;
  max_response_time_ms : Z;
  total_turns : nat;
  successful_turns : nat
}.

Record Analysis : Type := {
  semantic_similarity : dict TurnSimilarity;
  information_extraction : dict Extraction;
  tone_analysis : dict ToneScore;
  compliance_check : Compliance;
  performance_metrics : Performance
}.

(** What [_analyze_conversation] returns: either [{'error': msg}] or the
    five-section analysis dict. *)
Inductive AnalysisResult : Type :=
| ExecutionFailure (error : string)
| AnalysisReport (a : Analysis).

(** One element of [results]: the dict built by
    [execute_conversation_template], or the error record appended by
    [main] when a template raised.  [None] is an absent key. *)
Record TemplateResult : Type := {
  r_template : string;
  execution_time : option Q;
  conversation_data : option ConversationData;
  analysis : option AnalysisResult;
  r_error : option string;
  r_timestamp : string
}.

Record Summary : Type := {
  total_templates_tested : nat;
  successful_conversations : nat;
  avg_execution_time : Q;
  timestamp : string
}.

Record Report : Type := {
  summary : Summary;
  detailed_results : list TemplateResult;
  recommendations : list string
}.

(** A named entity of a spaCy document. *)
Record Ent : Type := {
  ent_text : string;
  label_ : string
}.

(** The Python [self]: the sentence-embedding model and the spaCy
    pipeline.  [encode] may raise; [cosine] is the kernel that
    [sklearn.metrics.pairwise.cosine_similarity] applies to a pair of
    rows; [nlp text] is [self.nlp(text).ents]. *)
Record ConversationValidator : Type := {
  vec : Type;
  encode : list string -> exc (list vec);
  cosine : vec -> vec -> Q;
  nlp : string -> list Ent
}.

(* ================================================================= *)
(** ** Similarity scorer *)

(** [cosine_similarity(X, Y)]: one row per row of [X]. *)
Definition cosine_similarity (self : ConversationValidator)
  (X Y : list (vec self)) : list (list Q) :=
  map (fun x => map (cosine self x) Y) X.

(** [m[0]] *)
Definition first_row {A : Type} (m : list A) : exc A :=
  match m with
  | [] => Raise (IndexError "index 0 is out of bounds")
  | r :: _ => Ok r
  end.

Definition _calculate_semantic_similarity (self : ConversationValidator)
  (ai_response : string) (expected_themes : list string) : exc (dict Q) :=
  match expected_themes with
  | [] => Ok []
  | _ :: _ =>
      ai_embedding <- encode self [ai_response] ;;
      theme_embeddings <- encode self expected_themes ;;
      similarities <-
        first_row (cosine_similarity self ai_embedding theme_embeddings) ;;
      Ok (dict_of_list (combine expected_themes similarities))
  end.

(* ================================================================= *)
(** ** Information extractor *)

(** A value of [extraction_patterns]; [None] is an absent key. *)
Record Pattern : Type := {
  entities : option (list string);
  keywords : option (list string)
}.

Definition extraction_patterns : dict Pattern :=
  [ ("client_name",
      {| entities := Some ["PERSON"];
         keywords := Some ["name is"; "called"; "my name"] |});
    ("location",
      {| entities := Some ["GPE"; "LOC"];
         keywords := Some ["live in"; "from"; "located"] |});
    ("accident_details",
      {| entities := None;
         keywords := Some ["accident"; "crash"; "collision"; "hit"] |});
    ("fault_determination",
      {| entities := None;
         keywords := Some ["red light"; "fault"; "responsible"; "caused"] |})
  ].

Definition _extract_information_type (self : ConversationValidator)
  (text : string) (info_type : string) : Extraction :=
  let doc_ents := nlp self text in
  let pattern :=
    dict_get_default info_type {| entities := None; keywords := None |}
      extraction_patterns in
  let ents :=
    match entities pattern with
    | Some labels =>
        map ent_text (filter (fun ent => mem (label_ ent) labels) doc_ents)
    | None => []
    end in
  let kws :=
    match keywords pattern with
    | Some kws =>
        let text_lower := lower text in
        filter (fun kw => contains text_lower kw) kws
    | None => []
    end in
  {| entities_found := ents;
     keywords_found := kws;
     extraction_confidence := List.length ents + List.length kws;
     extracted := (0 <? List.length ents)%nat || (0 <? List.length kws)%nat |}.

(* ================================================================= *)
(** ** Tone analyzer *)

Definition tone_indicators : dict (list string) :=
  [ ("professional", ["attorney"; "legal"; "information"; "assist"; "help"]);
    ("empathetic", ["sorry"; "understand"; "difficult"; "experience"]);
    ("legally_compliant",
      ["not legal advice"; "attorney will"; "cannot provide advice"]) ].

(** The value stored under [scores[requirement]] by one iteration of
    the loop of [_analyze_tone]. *)
Definition tone_score (text_lower : string) (requirement : string)
  : ToneScore :=
  let indicators := dict_get_default requirement [] tone_indicators in
  let found_indicators :=
    filter (fun ind => contains text_lower ind) indicators in
  {| indicators_found := found_indicators;
     score :=
       match indicators with
       | [] => 0
       | _ :: _ => len found_indicators / len indicators
       end;
     meets_requirement := (0 <? List.length found_indicators)%nat |}.

Definition _analyze_tone (text : string) (tone_requirements : list string)
  : dict ToneScore :=
  let text_lower := lower text in
  fold_left
    (fun scores requirement =>
       dict_set requirement (tone_score text_lower requirement) scores)
    tone_requirements [].

(* ================================================================= *)
(** ** Compliance checker *)

Definition _check_compliance (text : string) (prohibited_content : list string)
  : list string :=
  let text_lower := lower text in
  fold_left
    (fun violations prohibited =>
       if contains text_lower (lower prohibited)
       then violations ++ [prohibited]
       else violations)
    prohibited_content [].

(* ================================================================= *)
(** ** Turn analyzer *)

(** The key [f'turn_{turn_num}']. *)
Definition turn_key (turn_num : Z) : string := "turn_" ++ str_of_Z turn_num.

(** Body of the loop [for turn_data in conversation]. *)
Definition similarity_step (self : ConversationValidator)
  (template : ConversationTemplate)
  (acc : dict TurnSimilarity) (turn_data : TranscriptTurn)
  : exc (dict TurnSimilarity) :=
  let turn_num := td_turn turn_data in
  let ai_response := ai_response turn_data in
  match find (fun t => (turn t =? turn_num)%Z) (conversation_flow template) with
  | None => Ok acc
  | Some template_turn =>
      let expected_themes := expected_ai_themes template_turn in
      similarity_scores <-
        _calculate_semantic_similarity self ai_response expected_themes ;;
      avg <-
        match similarity_scores with
        | [] => Ok 0
        | _ :: _ => statistics_mean (dict_values similarity_scores)
        end ;;
      Ok (dict_set (turn_key turn_num)
            {| expected_themes := expected_themes;
               similarity_scores := similarity_scores;
               avg_similarity := avg |}
            acc)
  end.

(** Phase 1 of [_analyze_conversation]: the whole loop. *)
Definition similarity_phase (self : ConversationValidator)
  (template : ConversationTemplate) (conversation : list TranscriptTurn)
  : exc (dict TurnSimilarity) :=
  foldM (similarity_step self template) conversation [].

Definition _analyze_conversation (self : ConversationValidator)
  (conversation_data : ConversationData) (template : ConversationTemplate)
  : exc AnalysisResult :=
  if negb (success conversation_data)
  then Ok (ExecutionFailure "Conversation execution failed")
  else
    let conversation := conversation conversation_data in
    (* 1. Semantic Similarity Analysis *)
    semantic <- similarity_phase self template conversation ;;
    (* 2. Information Extraction Analysis *)
    let full_conversation_text := join " " (map ai_response conversation) in
    let required_info := information_capture (validation_criteria template) in
    let extraction :=
      fold_left
        (fun d info_type =>
           dict_set info_type
             (_extract_information_type self full_conversation_text info_type)
             d)
        required_info [] in
    (* 3. Tone and Professionalism Analysis *)
    let tone_scores :=
      _analyze_tone full_conversation_text
        (tone_requirements (validation_criteria template)) in
    (* 4. Compliance Check *)
    let compliance_issues :=
      _check_compliance full_conversation_text
        (prohibited_content (validation_criteria template)) in
    let compliance :=
      {| violations := compliance_issues;
         is_compliant := (List.length compliance_issues =? 0)%nat |} in
    (* 5. Performance Metrics *)
    let response_times := map response_time_ms conversation in
    avg_rt <- statistics_mean (map inject_Z response_times) ;;
    max_rt <- py_max response_times ;;
    Ok (AnalysisReport
          {| semantic_similarity := semantic;
             information_extraction := extraction;
             tone_analysis := tone_scores;
             compliance_check := compliance;
             performance_metrics :=
               {| avg_response_time_ms := avg_rt;
                  max_response_time_ms := max_rt;
                  total_turns := List.length conversation;
                  successful_turns :=
                    List.length
                      (filter
                         (fun t => (10 <? String.length (ai_response t))%nat)
                         conversation) |} |}).

(* ================================================================= *)
(** ** Aggregator *)

(** [analysis.get('semantic_similarity', {})] *)
Definition get_semantic_similarity (an : AnalysisResult) : dict TurnSimilarity :=
  match an with
  | AnalysisReport a => semantic_similarity a
  | ExecutionFailure _ => []
  end.

(** [analysis.get('compliance_check', {}).get('violations', [])] *)
Definition get_violations (an : AnalysisResult) : list string :=
  match an with
  | AnalysisReport a => violations (compliance_check a)
  | ExecutionFailure _ => []
  end.

(** Body of the loop [for result in results]; the accumulator is
    [(all_similarities, compliance_issues)]. *)
Definition collect_step (acc : list Q * list string) (result : TemplateResult)
  : list Q * list string :=
  match analysis result with
  | Some an =>
      let all_similarities :=
        fold_left (fun sims turn_data => sims ++ [avg_similarity turn_data])
          (dict_values (get_semantic_similarity an)) (fst acc) in
      (all_similarities, snd acc ++ get_violations an)
  | None => acc
  end.

Definition low_alignment_message (avg : Q) : string :=
  "AI response alignment with expected themes is low (" ++ format_2f avg
  ++ "). Consider refining training data or prompts.".

Definition violations_message (unique_issues : list string) : string :=
  "Compliance violations detected: " ++ join ", " unique_issues
  ++ ". Review AI boundaries and constraints.".

(** [list(set(xs))]: the elements of [xs] without repetition, in the
    order in which the interpreter iterates over its hash set.  The
    program does not determine that order, so it is an interface. *)
Record SetOrder : Type := {
  set_list : list string -> list string;
  set_list_NoDup : forall xs, NoDup (set_list xs);
  set_list_In : forall xs x, In x (set_list xs) <-> In x xs
}.

Definition _generate_recommendations (order : SetOrder)
  (results : list TemplateResult) : exc (list string) :=
  let recommendations := [] in
  let '(all_similarities, compliance_issues) :=
    fold_left collect_step results ([], []) in
  recommendations <-
    match all_similarities with
    | [] => Ok recommendations
    | _ :: _ =>
        avg_similarity <- statistics_mean all_similarities ;;
        if Qltb avg_similarity (6 # 10)
        then Ok (recommendations ++ [low_alignment_message avg_similarity])
        else Ok recommendations
    end ;;
  match compliance_issues with
  | [] => Ok recommendations
  | _ :: _ =>
      let unique_issues := set_list order compliance_issues in
      Ok (recommendations ++ [violations_message unique_issues])
  end.

(** The pooled similarity values, in the words of the specification:
    every [avg_similarity] of every turn of every successful report. *)
Definition pooled_similarities (results : list TemplateResult) : list Q :=
  flat_map
    (fun r =>
       match analysis r with
       | Some (AnalysisReport a) =>
           map avg_similarity (dict_values (semantic_similarity a))
       | _ => []
       end)
    results.

(** The pooled violations, in the words of the specification: every
    compliance violation of every successful report. *)
Definition pooled_violations (results : list TemplateResult) : list string :=
  flat_map
    (fun r =>
       match analysis r with
       | Some (AnalysisReport a) => violations (compliance_check a)
       | _ => []
       end)
    results.

(** [r['execution_time']] *)
Definition get_execution_time (r : TemplateResult) : exc Q :=
  match execution_time r with
  | Some t => Ok t
  | None => Raise (KeyError "execution_time")
  end.

(** ['analysis' in r] *)
Definition has_analysis (r : TemplateResult) : bool :=
  match analysis r with Some _ => true | None => false end.

(** The report dict built by [generate_report]; [now] is
    [datetime.now().isoformat()].  Writing the report to disk is left
    out. *)
Definition generate_report (order : SetOrder)
  (now : string) (results : list TemplateResult) : exc Report :=
  let total := List.length results in
  let successful := List.length (filter has_analysis results) in
  times <- mapM get_execution_time results ;;
  avg <- statistics_mean times ;;
  recs <- _generate_recommendations order results ;;
  Ok {| summary :=
          {| total_templates_tested := total;
             successful_conversations := successful;
             avg_execution_time := avg;
             timestamp := now |};
        detailed_results := results;
        recommendations := recs |}.

(* ================================================================= *)
(** ** Batch driver *)

(** [str(e)] *)
Definition str_of_exn (e : exn) : string :=
  match e with
  | StatisticsError msg => msg
  | KeyError key => "'" ++ key ++ "'"
  | ValueError msg => msg
  | IndexError msg => msg
  | ServiceError msg => msg
  end.

(** [execute_conversation_template]: [run] is the outcome of
    [_run_puppeteer_conversation], [elapsed] the measured wall-clock
    time. *)
Definition execute_conversation_template (self : ConversationValidator)
  (run : exc ConversationData) (elapsed : Q) (now : string)
  (template : ConversationTemplate) : exc TemplateResult :=
  conversation_result <- run ;;
  an <- _analyze_conversation self conversation_result template ;;
  Ok {| r_template := case_type template;
        execution_time := Some elapsed;
        conversation_data := Some conversation_result;
        analysis := Some an;
        r_error := None;
        r_timestamp := now |}.

(** Body of the loop of [main] over the template files: the
    [try]/[except Exception] around one template. *)
Definition main_step (self : ConversationValidator)
  (run : exc ConversationData) (elapsed : Q) (now : string)
  (file_name : string) (template : ConversationTemplate)
  (results : list TemplateResult) : list TemplateResult :=
  match execute_conversation_template self run elapsed now template with
  | Ok result => results ++ [result]
  | Raise e =>
      results ++ [ {| r_template := file_name;
                      execution_time := None;
                      conversation_data := None;
                      analysis := None;
                      r_error := Some (str_of_exn e);
                      r_timestamp := now |} ]
  end.

(* ================================================================= *)
(** ** The human-readable summary *)

(** The line feed. *)
Definition nl : string := String (ascii_of_nat 10) "".

(** A text given by the bytes of its UTF-8 encoding. *)
Definition text_of_bytes (bytes : list nat) : string :=
  fold_right (fun b s => String (ascii_of_nat b) s) "" bytes.

(** The two marks of the compliance line, as the source file has them. *)
Definition pass_mark : string :=
  text_of_bytes [195; 162; 197; 147; 226; 128; 166]%nat ++ " Pass".

Definition fail_mark : string :=
  text_of_bytes [195; 162; 197; 146]%nat ++ " Violations detected".

(** [str(n)] for a count. *)
Definition str_of_nat (n : nat) : string := str_of_Z (Z.of_nat n).

(** [analysis.get('compliance_check', {})]: [None] is the empty dict. *)
Definition get_compliance_check (an : AnalysisResult) : option Compliance :=
  match an with
  | AnalysisReport a => Some (compliance_check a)
  | ExecutionFailure _ => None
  end.

(** Body of the loop [for result in report['detailed_results']]. *)
Definition summary_step (summary : string) (result : TemplateResult)
  : exc string :=
  match analysis result with
  | None => Ok summary
  | Some an =>
      let template := r_template result in
      let summary := (summary ++ nl ++ "### " ++ template ++ nl)%string in
      t <- get_execution_time result ;;
      let summary :=
        (summary ++ "- **Execution Time**: " ++ format_2f t ++ "s" ++ nl)%string
      in
      let similarities := get_semantic_similarity an in
      summary <-
        match similarities with
        | [] => Ok summary
        | _ :: _ =>
            avg_sim <-
              statistics_mean (map avg_similarity (dict_values similarities)) ;;
            Ok (summary ++ "- **Semantic Alignment**: " ++ format_2f avg_sim
                ++ nl)%string
        end ;;
      match get_compliance_check an with
      | None => Ok summary
      | Some compliance =>
          Ok (summary ++ "- **Compliance**: "
              ++ (if is_compliant compliance then pass_mark else fail_mark)
              ++ nl)%string
      end
  end.

(** The text [_generate_summary_report] writes to the summary file. *)
Definition _generate_summary_report (report : Report) : exc string :=
  let summary :=
    ("# Engage AI Agent Validation Report" ++ nl
    ++ nl
    ++ "## Summary" ++ nl
    ++ "- **Templates Tested**: "
    ++ str_of_nat (total_templates_tested (summary report)) ++ nl
    ++ "- **Successful Conversations**: "
    ++ str_of_nat (successful_conversations (summary report)) ++ nl
    ++ "- **Average Execution Time**: "
    ++ format_2f (avg_execution_time (summary report)) ++ " seconds" ++ nl
    ++ "- **Report Generated**: " ++ timestamp (summary report) ++ nl
    ++ nl
    ++ "## Recommendations" ++ nl)%string in
  let summary :=
    fold_left (fun summary rec => (summary ++ "- " ++ rec ++ nl)%string)
      (recommendations report) summary in
  let summary := (summary ++ nl ++ "## Detailed Results" ++ nl)%string in
  foldM summary_step (detailed_results report) summary.

(* ================================================================= *)
(** ** Variable substitution *)

(** [s.replace(old, new)] for a non-empty [old]: the occurrences of
    [old] are replaced from left to right, without overlap.  [skip] is
    the number of characters of the occurrence just replaced that are
    still to be dropped. *)
Fixpoint replace_from (old new : string) (skip : nat) (s : string) : string :=
  match s with
  | EmptyString => EmptyString
  | String c s' =>
      match skip with
      | S k => replace_from old new k s'
      | O =>
          if prefix old s
          then new ++ replace_from old new (String.length old - 1) s'
          else String c (replace_from old new 0 s')
      end
  end.

Definition replace (old new s : string) : string := replace_from old new 0 s.

(** The message sent for one template turn: the sample data put in
    place of the variables. *)
Definition substitute_variables (user_input : string) : string :=
  let user_input := replace "{name}" "John Smith" user_input in
  let user_input := replace "{city}" "San Francisco" user_input in
  let user_input := replace "{state}" "California" user_input in
  user_input.

(** The list [conversation_turns] that [_generate_puppeteer_script]
    builds before it renders the script. *)
Definition conversation_turns (template : ConversationTemplate)
  : list string :=
  fold_left
    (fun turns t => turns ++ [substitute_variables (user_input t)])
    (conversation_flow template) [].

(* ================================================================= *)
(** ** The loop of [main] *)

(** One template file as [main] meets it: its name, the outcome of
    [ConversationTemplate(template_file)] (which may raise), and what
    running the loaded template gives: the capture, the measured time
    and the time stamp. *)
Record TemplateFile : Type := {
  file_name : string;
  load : exc ConversationTemplate;
  run : ConversationTemplate -> exc ConversationData;
  elapsed : Q;
  finished : string
}.

(** The [try] block of that loop: load the template, then run and
    analyze it. *)
Definition try_template (self : ConversationValidator) (f : TemplateFile)
  : exc TemplateResult :=
  template <- load f ;;
  execute_conversation_template self (run f template) (elapsed f)
    (finished f) template.

(** Body of [for template_file in template_files], loading included. *)
Definition main_body (self : ConversationValidator)
  (results : list TemplateResult) (f : TemplateFile) : list TemplateResult :=
  match load f with
  | Ok template =>
      main_step self (run f template) (elapsed f) (finished f) (file_name f)
        template results
  | Raise e =>
      results ++ [ {| r_template := file_name f;
                      execution_time := None;
                      conversation_data := None;
                      analysis := None;
                      r_error := Some (str_of_exn e);
                      r_timestamp := finished f |} ]
  end.

Definition main_loop (self : ConversationValidator)
  (template_files : list TemplateFile) : list TemplateResult :=
  fold_left (main_body self) template_files [].

(** [main] once the template files are listed: [None] is the early
    return on an empty list, otherwise the outcome of
    [generate_report] on the collected results. *)
Definition main (self : ConversationValidator) (order : SetOrder)
  (now : string) (template_files : list TemplateFile) : option (exc Report) :=
  match template_files with
  | [] => None
  | _ :: _ => Some (generate_report order now (main_loop self template_files))
  end.

(* ================================================================= *)
(** ** Sample inputs *)

(** An embedding model that answers every call. *)
Definition steady_validator : ConversationValidator :=
  {| vec := nat;
     encode := fun texts => Ok (map String.length texts);
     cosine := fun a b => if (a <=? b)%nat then 3 # 10 else 4 # 10;
     nlp := fun _ => [ {| ent_text := "John"; label_ := "PERSON" |} ] |}.

(** An embedding model whose every call raises. *)
Definition failing_validator : ConversationValidator :=
  {| vec := nat;
     encode := fun _ => Raise (ServiceError "embedding unavailable");
     cosine := fun _ _ => 0;
     nlp := fun _ => [] |}.

Definition opening_turn : TemplateTurn :=
  {| turn := 1;
     user_input := "I was in a car accident";
     expected_ai_themes := ["empathy"; "legal disclaimer"];
     required_elements := [] |}.

Definition intake_template : ConversationTemplate :=
  {| case_type := "car_accident";
     practice_area := "personal_injury";
     conversation_flow := [opening_turn];
     validation_criteria :=
       {| information_capture := ["client_name"; "insurance"];
          tone_requirements := ["empathetic"; "assertive"];
          prohibited_content := ["At Fault"; "you will definitely win"] |} |}.

Definition greeting_turn : TranscriptTurn :=
  {| td_turn := 1;
     td_user_input := "I was in a car accident";
     ai_response := "I'm sorry. The Client Was AT FAULT, my name is Ann.";
     response_time_ms := 1200;
     td_timestamp := "2025-01-01T00:00:00" |}.

(** A transcript turn the template does not describe. *)
Definition stray_turn : TranscriptTurn :=
  {| td_turn := 7;
     td_user_input := "thanks";
     ai_response := "You are welcome, goodbye.";
     response_time_ms := 800;
     td_timestamp := "2025-01-01T00:01:00" |}.

Definition captured (turns : list TranscriptTurn) : ConversationData :=
  {| success := true; conversation := turns; cd_error := None |}.

Definition capture_failed : ConversationData :=
  {| success := false; conversation := []; cd_error := Some "timeout" |}.

(** The set order that keeps one occurrence of each element in list
    order. *)
Definition list_order : SetOrder :=
  {| set_list := nodup string_dec;
     set_list_NoDup := NoDup_nodup string_dec;
     set_list_In := nodup_In string_dec |}.

(** A successful per-template result whose report has one turn entry
    per given [avg_similarity] and the given violations. *)
Definition scored_result (avgs : list Q) (issues : list string)
  : TemplateResult :=
  {| r_template := "car_accident";
     execution_time := Some 2;
     conversation_data := None;
     analysis :=
       Some (AnalysisReport
         {| semantic_similarity :=
              dict_of_list
                (combine
                   (map (fun i => turn_key (Z.of_nat i))
                      (seq 1 (List.length avgs)))
                   (map (fun q => {| expected_themes := ["empathy"];
                                     similarity_scores := [("empathy", q)];
                                     avg_similarity := q |})
                      avgs));
            information_extraction := [];
            tone_analysis := [];
            compliance_check :=
              {| violations := issues;
                 is_compliant := (List.length issues =? 0)%nat |};
            performance_metrics :=
              {| avg_response_time_ms := 1000;
                 max_response_time_ms := 1000;
                 total_turns := List.length avgs;
                 successful_turns := List.length avgs |} |});
     r_error := None;
     r_timestamp := "2025-01-01T00:00:00" |}.

(** The batch [main] hands to [generate_report] after a first template
    that ran and a second one whose embedding call raised. *)
Definition batch_with_failure : list TemplateResult :=
  main_step failing_validator (Ok (captured [greeting_turn])) 3
    "2025-01-01T00:05:00" "car_accident.yaml" intake_template
    (main_step steady_validator (Ok (captured [greeting_turn])) 2
       "2025-01-01T00:04:00" "car_accident.yaml" intake_template []).

(** A template whose first message uses the three variables and whose
    turns list no theme. *)
Definition variables_template : ConversationTemplate :=
  {| case_type := "slip_and_fall";
     practice_area := "personal_injury";
     conversation_flow :=
       [ {| turn := 1;
            user_input := "I am {name} from {city}, {state}.";
            expected_ai_themes := [];
            required_elements := [] |} ];
     validation_criteria :=
       {| information_capture := [];
          tone_requirements := [];
          prohibited_content := [""] |} |}.

(** A template file that loads and whose capture succeeds. *)
Definition good_file : TemplateFile :=
  {| file_name := "car_accident.yaml";
     load := Ok intake_template;
     run := fun _ => Ok (captured [greeting_turn]);
     elapsed := 2;
     finished := "2025-01-01T00:04:00" |}.

(** A template file that loads and whose capture fails. *)
Definition failed_capture_file : TemplateFile :=
  {| file_name := "slip_and_fall.yaml";
     load := Ok variables_template;
     run := fun _ => Ok capture_failed;
     elapsed := 5;
     finished := "2025-01-01T00:05:00" |}.

(** A template file that does not load. *)
Definition broken_file : TemplateFile :=
  {| file_name := "broken.yaml";
     load := Raise (KeyError "case_type");
     run := fun _ => Ok capture_failed;
     elapsed := 0;
     finished := "2025-01-01T00:06:00" |}.

(* ================================================================= *)
(** * Properties *)

(** ** Strings *)

Lemma prefix_iff_append (needle hay : string) :
  prefix needle hay = true <-> exists post, hay = (needle ++ post)%string.
Proof.
  revert hay; induction needle as [|c needle IH]; intros hay.
  - split; [intros _; now exists hay | now destruct hay].
  - destruct hay as [|c' hay]; simpl.
    + split; [discriminate | intros [post H]; discriminate].
    + destruct (ascii_dec c c') as [->|Hne].
      * rewrite IH. split; intros [post H]; exists post.
        -- now rewrite H.
        -- now injection H.
      * split; [discriminate|].
        intros [post H]. injection H as H1 _. congruence.
Qed.

(** [contains] decides the substring relation. *)
Lemma contains_iff_infix (hay needle : string) :
  contains hay needle = true <->
  exists pre post, hay = (pre ++ needle ++ post)%string.
Proof.
  induction hay as [|c hay IH]; cbn [contains]; rewrite orb_true_iff.
  - split.
    + intros [H|H]; [|discriminate].
      apply prefix_iff_append in H as [post H]. now exists "", post.
    + intros [pre [post H]]. left. apply prefix_iff_append.
      destruct pre; [now exists post | discriminate].
  - rewrite IH, prefix_iff_append. split.
    + intros [[post H]|[pre [post H]]].
      * now exists "", post.
      * exists (String c pre), post. simpl. now rewrite H.
    + intros [pre [post H]]. destruct pre as [|c' pre]; simpl in H.
      * left. now exists post.
      * right. injection H as _ H. now exists pre, post.
Qed.

Lemma mem_iff_In (x : string) (xs : list string) :
  mem x xs = true <-> In x xs.
Proof.
  unfold mem. rewrite existsb_exists. split.
  - intros [y [Hy E]]. apply String.eqb_eq in E. now subst.
  - intros H. exists x. split; [assumption | apply String.eqb_refl].
Qed.

(** Every indicator of the tone registry is already lower-case, so
    looking it up in the lowered text is a case-insensitive match. *)
Lemma tone_indicators_lowercase (requirement ind : string) :
  In ind (dict_get_default requirement [] tone_indicators) ->
  lower ind = ind.
Proof.
  unfold dict_get_default, tone_indicators; simpl.
  repeat (destruct (String.eqb requirement _));
    simpl; intros H; repeat (destruct H as [<-|H]; [reflexivity|]);
    contradiction.
Qed.

(** ** Dictionaries *)

Lemma dict_get_set_same {V : Type} (k : string) (v : V) (d : dict V) :
  dict_get k (dict_set k v d) = Some v.
Proof.
  induction d as [|[k' v'] d IH]; simpl.
  - now rewrite String.eqb_refl.
  - destruct (String.eqb k k') eqn:E; simpl; now rewrite E.
Qed.

Lemma dict_get_set_other {V : Type} (k k' : string) (v : V) (d : dict V) :
  k <> k' -> dict_get k (dict_set k' v d) = dict_get k d.
Proof.
  intros Hne. induction d as [|[k0 v0] d IH]; simpl.
  - apply String.eqb_neq in Hne. now rewrite Hne.
  - destruct (String.eqb k' k0) eqn:E; simpl.
    + apply String.eqb_eq in E. subst k0.
      apply String.eqb_neq in Hne. now rewrite Hne.
    + destruct (String.eqb k k0); [reflexivity | exact IH].
Qed.

(** A loop [for k in ks: d[k] = f(k)] leaves [f k] under every key of
    [ks], whatever the repetitions. *)
Lemma dict_get_fold_set {V : Type} (f : string -> V) (ks : list string) :
  forall (d : dict V) (k : string),
    dict_get k (fold_left (fun d r => dict_set r (f r) d) ks d) =
    if mem k ks then Some (f k) else dict_get k d.
Proof.
  induction ks as [|r ks IH]; intros d k; simpl; [reflexivity|].
  rewrite IH. destruct (mem k ks) eqn:M.
  - now rewrite orb_true_r.
  - rewrite orb_false_r. destruct (String.eqb k r) eqn:E.
    + apply String.eqb_eq in E. subst r. apply dict_get_set_same.
    + apply String.eqb_neq in E. now apply dict_get_set_other.
Qed.

(** ** Counting *)

Lemma len_nonneg {A : Type} (l : list A) : 0 <= len l.
Proof.
  unfold len. rewrite <- (Zle_Qle 0). lia.
Qed.

Lemma len_pos {A : Type} (l : list A) : l <> [] -> 0 < len l.
Proof.
  intros H. unfold len. rewrite <- (Zlt_Qlt 0).
  destruct l; [congruence | simpl; lia].
Qed.

Lemma len_filter_le {A : Type} (f : A -> bool) (l : list A) :
  len (filter f l) <= len l.
Proof.
  unfold len. rewrite <- Zle_Qle.
  pose proof (filter_length_le f l). lia.
Qed.

(** A hit rate [len(found) / len(all)] is a fraction of one. *)
Lemma hit_rate_bounds {A : Type} (f : A -> bool) (l : list A) :
  l <> [] -> 0 <= len (filter f l) / len l <= 1.
Proof.
  intros H. pose proof (len_pos l H) as Hpos. split.
  - apply Qle_shift_div_l; [assumption|].
    rewrite Qmult_0_l. apply len_nonneg.
  - apply Qle_shift_div_r; [assumption|].
    rewrite Qmult_1_l. apply len_filter_le.
Qed.

(** ** Compliance checker *)

Lemma check_compliance_loop (text_lower : string) (ps acc : list string) :
  fold_left
    (fun violations prohibited =>
       if contains text_lower (lower prohibited)
       then violations ++ [prohibited]
       else violations)
    ps acc
  = acc ++ filter (fun p => contains text_lower (lower p)) ps.
Proof.
  revert acc; induction ps as [|p ps IH]; intros acc; simpl.
  - now rewrite app_nil_r.
  - rewrite IH. destruct (contains text_lower (lower p)); [|reflexivity].
    now rewrite <- app_assoc.
Qed.

(** What a returned report holds in its [compliance_check] section. *)
Lemma analyze_conversation_compliance (self : ConversationValidator)
  (d : ConversationData) (t : ConversationTemplate) (a : Analysis) :
  _analyze_conversation self d t = Ok (AnalysisReport a) ->
  violations (compliance_check a) =
    _check_compliance (join " " (map ai_response (conversation d)))
      (prohibited_content (validation_criteria t))
  /\ is_compliant (compliance_check a) =
       (List.length (violations (compliance_check a)) =? 0)%nat.
Proof.
  unfold _analyze_conversation.
  destruct (success d); simpl; [|discriminate].
  destruct (similarity_phase self t (conversation d)); simpl; [|discriminate].
  destruct (statistics_mean _); simpl; [|discriminate].
  destruct (py_max _); simpl; [|discriminate].
  intros [= <-]. simpl. split; reflexivity.
Qed.

(** C5.  The compliance check returns exactly the prohibited phrases
    whose lower-cased form occurs in the lower-cased transcript text, in
    the order and with the multiplicity of the prohibited list (it is the
    sub-list selected by that test); and in every report the analyzer
    returns, [violations] is that check run over the joined transcript
    and [is_compliant] holds iff [violations] is empty. *)
Theorem check_compliance_selects_matching_phrases :
  forall (text : string) (prohibited : list string),
    _check_compliance text prohibited
    = filter (fun p => contains (lower text) (lower p)) prohibited
    /\ (forall p,
          In p (_check_compliance text prohibited) <->
          In p prohibited /\
          exists pre post, lower text = (pre ++ lower p ++ post)%string)
    /\ (forall self d t a,
          _analyze_conversation self d t = Ok (AnalysisReport a) ->
          violations (compliance_check a) =
            _check_compliance (join " " (map ai_response (conversation d)))
              (prohibited_content (validation_criteria t))
          /\ (is_compliant (compliance_check a) = true <->
              violations (compliance_check a) = [])).
Proof.
  intros text ps.
  assert (E : _check_compliance text ps
              = filter (fun p => contains (lower text) (lower p)) ps).
  { unfold _check_compliance. now rewrite check_compliance_loop. }
  split; [exact E|]. split.
  - intros p. rewrite E, filter_In, contains_iff_infix. reflexivity.
  - intros self d t a H.
    destruct (analyze_conversation_compliance self d t a H) as [Hv Hc].
    split; [exact Hv|]. rewrite Hc, Nat.eqb_eq.
    destruct (violations (compliance_check a)); simpl; split;
      congruence || discriminate.
Qed.

(** ** Information extractor *)

(** C6.  For every text and information type the extraction confidence
    is [len(entities_found) + len(keywords_found)] and [extracted] holds
    iff that sum is positive; an information type outside the registry
    yields no entity, no keyword, [extracted = False] and confidence 0.
    The function is total: it raises for no input. *)
Theorem extraction_confidence_counts_findings :
  forall (self : ConversationValidator) (text info_type : string),
    let r := _extract_information_type self text info_type in
    extraction_confidence r
      = (List.length (entities_found r) + List.length (keywords_found r))%nat
    /\ (extracted r = true <->
        (0 < List.length (entities_found r)
             + List.length (keywords_found r))%nat)
    /\ (dict_get info_type extraction_patterns = None ->
        entities_found r = [] /\ keywords_found r = [] /\
        extracted r = false /\ extraction_confidence r = 0%nat).
Proof.
  intros self text info_type r. split; [reflexivity|]. split.
  - subst r. unfold _extract_information_type. cbn [extracted entities_found keywords_found].
    rewrite orb_true_iff, !Nat.ltb_lt. lia.
  - intros Hnone. subst r. unfold _extract_information_type, dict_get_default.
    rewrite Hnone. simpl. repeat split; reflexivity.
Qed.

(** ** Tone analyzer *)

(** C7.  For every text and every requested profile, the entry stored
    for the profile lists the registry indicators that occur in the text
    up to letter case; its score is [found_count / total_indicators]
    (0 for a profile with no indicator) and lies in [0,1];
    [meets_requirement] holds iff [found_count > 0]; a profile absent
    from the registry gets no indicator, score 0 and
    [meets_requirement = False]. *)
Theorem tone_score_is_indicator_hit_rate :
  forall (text : string) (tone_requirements : list string) (profile : string),
    In profile tone_requirements ->
    let indicators := dict_get_default profile [] tone_indicators in
    let found :=
      filter (fun ind => contains (lower text) (lower ind)) indicators in
    exists ts,
      dict_get profile (_analyze_tone text tone_requirements) = Some ts
      /\ indicators_found ts = found
      /\ score ts = match indicators with
                    | [] => 0
                    | _ :: _ => len found / len indicators
                    end
      /\ (0 <= score ts <= 1)
      /\ (meets_requirement ts = true <-> (0 < List.length found)%nat)
      /\ (dict_get profile tone_indicators = None ->
          indicators_found ts = [] /\ score ts = 0 /\
          meets_requirement ts = false).
Proof.
  intros text reqs profile Hin indicators found.
  assert (Efound : filter (fun ind => contains (lower text) ind) indicators
                   = found).
  { apply filter_ext_in. intros ind Hind.
    now rewrite (tone_indicators_lowercase profile ind Hind). }
  exists (tone_score (lower text) profile).
  split.
  { unfold _analyze_tone. rewrite dict_get_fold_set.
    apply mem_iff_In in Hin. now rewrite Hin. }
  unfold tone_score. fold indicators. cbn zeta.
  cbn [indicators_found score meets_requirement]. rewrite Efound.
  split; [reflexivity|]. split; [reflexivity|]. split; [|split].
  - destruct indicators as [|i inds] eqn:Ei.
    + split; [apply Qle_refl | discriminate].
    + subst found. apply hit_rate_bounds. discriminate.
  - apply Nat.ltb_lt.
  - intros Hnone. unfold dict_get_default in indicators.
    subst found indicators. rewrite Hnone. simpl. repeat split; reflexivity.
Qed.

(** ** Turn analyzer: failed capture *)

(** C2.  When the capture did not succeed, the analyzer returns the
    error record at once and without raising, whatever the embedding
    model and the entity recogniser would do: the record carries no
    similarity, extraction, tone or compliance result.  The per-template
    driver then returns, with that record as its analysis. *)
Theorem analyze_failed_capture_short_circuits :
  forall (self : ConversationValidator) (conversation_data : ConversationData)
         (template : ConversationTemplate),
    success conversation_data = false ->
    _analyze_conversation self conversation_data template
    = Ok (ExecutionFailure "Conversation execution failed")
    /\ (forall elapsed now, exists result,
          execute_conversation_template self (Ok conversation_data) elapsed
            now template = Ok result
          /\ analysis result
             = Some (ExecutionFailure "Conversation execution failed")).
Proof.
  intros self d t H.
  assert (E : _analyze_conversation self d t
              = Ok (ExecutionFailure "Conversation execution failed")).
  { unfold _analyze_conversation. now rewrite H. }
  split; [exact E|].
  intros elapsed now. unfold execute_conversation_template. simpl.
  rewrite E. simpl. eexists. split; reflexivity.
Qed.

(** ** Loops that may raise *)

Lemma foldM_app {A S : Type} (body : S -> A -> exc S) (xs ys : list A) :
  forall s, foldM body (xs ++ ys) s = (s' <- foldM body xs s ;; foldM body ys s').
Proof.
  induction xs as [|x xs IH]; intros s; simpl; [reflexivity|].
  destruct (body s x) as [s1|e]; simpl; [apply IH | reflexivity].
Qed.

Lemma mapM_all_ok {A B : Type} (f : A -> exc B) (xs : list A) :
  (forall x, In x xs -> exists y, f x = Ok y) ->
  exists ys, mapM f xs = Ok ys /\ List.length ys = List.length xs.
Proof.
  induction xs as [|x xs IH]; intros H; simpl.
  - now exists [].
  - destruct (H x (or_introl eq_refl)) as [y Hy]. rewrite Hy. simpl.
    destruct IH as [ys [Hys Hlen]].
    { intros x' Hx'. apply H. now right. }
    rewrite Hys. simpl. exists (y :: ys). simpl. now rewrite Hlen.
Qed.

Lemma mapM_first_failure {A B : Type} (f : A -> exc B) (e : exn)
  (xs : list A) :
  (forall x, In x xs -> f x = Raise e \/ exists y, f x = Ok y) ->
  (exists x, In x xs /\ f x = Raise e) ->
  mapM f xs = Raise e.
Proof.
  induction xs as [|x xs IH]; intros Hall [x0 [Hin Hx0]]; [contradiction|].
  simpl. destruct (Hall x (or_introl eq_refl)) as [Hx|[y Hy]].
  - now rewrite Hx.
  - rewrite Hy. simpl. rewrite IH; [reflexivity| |].
    + intros x' Hx'. apply Hall. now right.
    + destruct Hin as [->|Hin]; [congruence|]. now exists x0.
Qed.

(** ** Turn keys *)

Lemma str_of_Z_inj (a b : Z) : str_of_Z a = str_of_Z b -> a = b.
Proof.
  unfold str_of_Z. intros H. apply DecimalZ.to_int_inj.
  assert (P : forall n, NilZero.int_of_string
                          (NilZero.string_of_int (Z.to_int n))
                        = Some (Z.to_int n)).
  { intros n. apply NilZero.isi; destruct n; simpl; try discriminate;
      intros [= E]; now apply DecimalPos.Unsigned.to_uint_nonnil in E. }
  pose proof (P a) as Pa. rewrite H, P in Pa. now injection Pa.
Qed.

Lemma turn_key_inj (a b : Z) : turn_key a = turn_key b -> a = b.
Proof.
  unfold turn_key. simpl. intros [= H]. now apply str_of_Z_inj.
Qed.

Lemma dict_mem_set {V : Type} (k k' : string) (v : V) (d : dict V) :
  dict_mem k (dict_set k' v d) = String.eqb k k' || dict_mem k d.
Proof.
  unfold dict_mem. destruct (String.eqb k k') eqn:E.
  - apply String.eqb_eq in E. subst. now rewrite dict_get_set_same.
  - apply String.eqb_neq in E. now rewrite dict_get_set_other.
Qed.

(** ** Turn analyzer: the similarity loop *)

Section SimilarityLoop.

Variable self : ConversationValidator.
Variable template : ConversationTemplate.

(** The transcript turn has a template turn of the same number. *)
Let matched (td : TranscriptTurn) : bool :=
  existsb (fun tt => (turn tt =? td_turn td)%Z) (conversation_flow template).

Lemma find_turn_none (td : TranscriptTurn) :
  matched td = false ->
  find (fun tt => (turn tt =? td_turn td)%Z) (conversation_flow template)
  = None.
Proof.
  unfold matched. induction (conversation_flow template) as [|tt l IH];
    simpl; [reflexivity|].
  destruct (turn tt =? td_turn td)%Z; simpl; [discriminate | exact IH].
Qed.

Lemma find_turn_some (td : TranscriptTurn) :
  matched td = true ->
  exists tt,
    find (fun tt => (turn tt =? td_turn td)%Z) (conversation_flow template)
    = Some tt.
Proof.
  unfold matched. induction (conversation_flow template) as [|tt l IH];
    simpl; [discriminate|].
  destruct (turn tt =? td_turn td)%Z; simpl; [now exists tt | exact IH].
Qed.

Lemma similarity_step_unmatched (acc : dict TurnSimilarity)
  (td : TranscriptTurn) :
  matched td = false -> similarity_step self template acc td = Ok acc.
Proof.
  intros H. unfold similarity_step. now rewrite (find_turn_none td H).
Qed.

Lemma similarity_loop_skips (conv : list TranscriptTurn) :
  forall acc,
    foldM (similarity_step self template) conv acc
    = foldM (similarity_step self template) (filter matched conv) acc.
Proof.
  induction conv as [|td conv IH]; intros acc; simpl; [reflexivity|].
  destruct (matched td) eqn:M; simpl.
  - destruct (similarity_step self template acc td); simpl;
      [apply IH | reflexivity].
  - rewrite (similarity_step_unmatched acc td M). simpl. apply IH.
Qed.

Lemma similarity_step_keys (acc acc' : dict TurnSimilarity)
  (td : TranscriptTurn) :
  similarity_step self template acc td = Ok acc' ->
  forall k,
    dict_mem k acc' = true <->
    dict_mem k acc = true \/
    (matched td = true /\ k = turn_key (td_turn td)).
Proof.
  intros H k. destruct (matched td) eqn:M.
  - destruct (find_turn_some td M) as [tt Hf].
    unfold similarity_step in H. rewrite Hf in H.
    destruct (_calculate_semantic_similarity self _ _) as [sc|]; simpl in H;
      [|discriminate].
    destruct (match sc with [] => Ok 0 | _ :: _ => _ end) as [avg|];
      simpl in H; [|discriminate].
    injection H as <-. rewrite dict_mem_set, orb_true_iff, String.eqb_eq.
    tauto.
  - rewrite (similarity_step_unmatched acc td M) in H. injection H as <-.
    intuition discriminate.
Qed.

Lemma similarity_loop_keys (conv : list TranscriptTurn) :
  forall acc acc',
    foldM (similarity_step self template) conv acc = Ok acc' ->
    forall k,
      dict_mem k acc' = true <->
      dict_mem k acc = true \/
      exists td, In td conv /\ matched td = true /\ k = turn_key (td_turn td).
Proof.
  induction conv as [|td conv IH]; intros acc acc' H k; simpl in H.
  - injection H as <-. split; [now left|].
    intros [H|[td [[] _]]]. exact H.
  - destruct (similarity_step self template acc td) as [acc1|] eqn:S;
      simpl in H; [|discriminate].
    rewrite (IH acc1 acc' H k), (similarity_step_keys acc acc1 td S k).
    split.
    + intros [[H1|[M E]]|[td' [Hin [M E]]]].
      * now left.
      * right. exists td. simpl. auto.
      * right. exists td'. simpl. auto.
    + intros [H1|[td' [[<-|Hin] [M E]]]].
      * auto.
      * auto.
      * right. now exists td'.
Qed.

(** An embedding model that answers every call with one vector per
    text. *)
Hypothesis encode_answers :
  forall texts, exists vs,
    encode self texts = Ok vs /\ List.length vs = List.length texts.

Lemma calculate_semantic_similarity_returns (ai : string)
  (themes : list string) :
  exists scores, _calculate_semantic_similarity self ai themes = Ok scores.
Proof.
  unfold _calculate_semantic_similarity. destruct themes as [|th themes].
  - now exists [].
  - destruct (encode_answers [ai]) as [v [Hv Lv]]. rewrite Hv. simpl.
    destruct (encode_answers (th :: themes)) as [w [Hw _]]. rewrite Hw.
    simpl. destruct v as [|x v]; [discriminate|]. simpl. eauto.
Qed.

Lemma similarity_step_returns (acc : dict TurnSimilarity)
  (td : TranscriptTurn) :
  exists acc', similarity_step self template acc td = Ok acc'.
Proof.
  unfold similarity_step. destruct (find _ _) as [tt|]; [|eauto].
  destruct (calculate_semantic_similarity_returns
              (ai_response td) (expected_ai_themes tt)) as [sc Hsc].
  rewrite Hsc. simpl. destruct sc as [|p sc]; simpl; eauto.
Qed.

Lemma similarity_loop_returns (conv : list TranscriptTurn) :
  forall acc, exists acc',
    foldM (similarity_step self template) conv acc = Ok acc'.
Proof.
  induction conv as [|td conv IH]; intros acc; simpl; [eauto|].
  destruct (similarity_step_returns acc td) as [acc1 H1]. rewrite H1.
  simpl. apply IH.
Qed.

End SimilarityLoop.

(** ** Turn analyzer: the whole analysis *)

(** The [semantic_similarity] section of a returned report is the
    outcome of the similarity loop. *)
Lemma analyze_conversation_semantic (self : ConversationValidator)
  (d : ConversationData) (t : ConversationTemplate) (a : Analysis) :
  _analyze_conversation self d t = Ok (AnalysisReport a) ->
  similarity_phase self t (conversation d) = Ok (semantic_similarity a).
Proof.
  unfold _analyze_conversation.
  destruct (success d); simpl; [|discriminate].
  destruct (similarity_phase self t (conversation d)); simpl; [|discriminate].
  destruct (statistics_mean _); simpl; [|discriminate].
  destruct (py_max _); simpl; [|discriminate].
  now intros [= <-].
Qed.

(** If the similarity loop raises, so does the analysis. *)
Lemma analyze_conversation_propagates (self : ConversationValidator)
  (d : ConversationData) (t : ConversationTemplate) (e : exn) :
  success d = true ->
  similarity_phase self t (conversation d) = Raise e ->
  _analyze_conversation self d t = Raise e.
Proof.
  intros Hs Hp. unfold _analyze_conversation. now rewrite Hs, Hp.
Qed.

(** With an embedding model that answers and at least one turn, the
    analysis returns a report. *)
Lemma analyze_conversation_returns (self : ConversationValidator)
  (d : ConversationData) (t : ConversationTemplate) :
  (forall texts, exists vs,
      encode self texts = Ok vs /\ List.length vs = List.length texts) ->
  success d = true ->
  conversation d <> [] ->
  exists a, _analyze_conversation self d t = Ok (AnalysisReport a).
Proof.
  intros Henc Hs Hne. unfold _analyze_conversation. rewrite Hs. simpl.
  destruct (similarity_loop_returns self t Henc (conversation d) [])
    as [sem Hsem].
  unfold similarity_phase. rewrite Hsem. simpl.
  destruct (conversation d) as [|td conv]; [congruence|]. simpl. eauto.
Qed.

(** C9.  For a successful capture, transcript turns without a template
    turn of the same number are skipped: the similarity loop runs as if
    they were not in the transcript (so they add no entry and raise
    nothing, whatever the embedding model does); a returned report has an
    entry under [turn_n] exactly for the numbers [n] of the transcript
    turns that have a template turn; and the report is returned whenever
    the embedding model answers and the transcript has a turn. *)
Theorem unmatched_turns_are_skipped :
  forall (self : ConversationValidator) (conversation_data : ConversationData)
         (template : ConversationTemplate),
    success conversation_data = true ->
    let matched := fun td =>
      existsb (fun tt => (turn tt =? td_turn td)%Z)
        (conversation_flow template) in
    similarity_phase self template (conversation conversation_data)
    = similarity_phase self template
        (filter matched (conversation conversation_data))
    /\ (forall a,
          _analyze_conversation self conversation_data template
          = Ok (AnalysisReport a) ->
          forall n,
            dict_mem (turn_key n) (semantic_similarity a) = true <->
            exists td, In td (conversation conversation_data) /\
                       td_turn td = n /\ matched td = true)
    /\ ((forall texts, exists vs,
            encode self texts = Ok vs /\
            List.length vs = List.length texts) ->
        conversation conversation_data <> [] ->
        exists a, _analyze_conversation self conversation_data template
                  = Ok (AnalysisReport a)).
Proof.
  intros self d t Hs matched. split; [|split].
  - unfold similarity_phase. apply similarity_loop_skips.
  - intros a Ha n. apply analyze_conversation_semantic in Ha.
    unfold similarity_phase in Ha.
    rewrite (similarity_loop_keys self t (conversation d) [] _ Ha (turn_key n)).
    cbv zeta. fold matched. split.
    + intros [H|[td [Hin [M E]]]]; [discriminate|].
      exists td. apply turn_key_inj in E. auto.
    + intros [td [Hin [E M]]]. right. exists td. subst n. auto.
  - intros Henc Hne. now apply analyze_conversation_returns.
Qed.

(** C1 (as the code behaves).  When the embedding call raises while a
    turn with a template turn and a non-empty theme list is scored, the
    per-conversation analysis raises too and returns no report: the
    exception is the one of the embedding call when the earlier turns
    were scored without error.  The batch driver catches it and records
    an error entry, without analysis, for that template. *)
Theorem embedding_failure_aborts_analysis :
  forall (self : ConversationValidator) (conversation_data : ConversationData)
         (template : ConversationTemplate)
         (earlier later : list TranscriptTurn) (turn_data : TranscriptTurn)
         (template_turn : TemplateTurn) (e : exn),
    success conversation_data = true ->
    conversation conversation_data = earlier ++ turn_data :: later ->
    find (fun tt => (turn tt =? td_turn turn_data)%Z)
      (conversation_flow template) = Some template_turn ->
    expected_ai_themes template_turn <> [] ->
    (encode self [ai_response turn_data] = Raise e \/
     exists v, encode self [ai_response turn_data] = Ok v /\
               encode self (expected_ai_themes template_turn) = Raise e) ->
    (exists e', _analyze_conversation self conversation_data template
                = Raise e')
    /\ (forall acc,
          similarity_phase self template earlier = Ok acc ->
          _analyze_conversation self conversation_data template = Raise e)
    /\ (forall elapsed now file_name results,
          exists record,
            main_step self (Ok conversation_data) elapsed now file_name
              template results = results ++ [record]
            /\ analysis record = None
            /\ execution_time record = None
            /\ r_error record <> None).
Proof.
  intros self d t earlier later td tt e Hs Hconv Hfind Hthemes Henc.
  assert (Hcalc : _calculate_semantic_similarity self (ai_response td)
                    (expected_ai_themes tt) = Raise e).
  { unfold _calculate_semantic_similarity.
    destruct (expected_ai_themes tt) as [|th ths]; [congruence|].
    destruct Henc as [H|[v [H1 H2]]].
    - now rewrite H.
    - now rewrite H1, H2. }
  assert (Hstep : forall acc, similarity_step self t acc td = Raise e).
  { intros acc. unfold similarity_step. now rewrite Hfind, Hcalc. }
  assert (Hphase : forall acc, similarity_phase self t earlier = Ok acc ->
                               similarity_phase self t (conversation d)
                               = Raise e).
  { intros acc Hacc. unfold similarity_phase in *.
    rewrite Hconv, foldM_app, Hacc. simpl. now rewrite Hstep. }
  assert (Hraise : exists e', _analyze_conversation self d t = Raise e').
  { destruct (similarity_phase self t earlier) as [acc|e0] eqn:Hearlier.
    - exists e. apply analyze_conversation_propagates; eauto.
    - exists e0. apply analyze_conversation_propagates; [assumption|].
      unfold similarity_phase in *. now rewrite Hconv, foldM_app, Hearlier. }
  split; [exact Hraise|]. split.
  - intros acc Hacc. apply analyze_conversation_propagates; eauto.
  - intros elapsed now file_name results. destruct Hraise as [e' He'].
    unfold main_step, execute_conversation_template. simpl. rewrite He'.
    simpl. eexists. split; [reflexivity|]. simpl. repeat split. discriminate.
Qed.

(** C10.  For a successful capture with no turn the analyzer raises the
    [statistics.mean] error of the performance metrics instead of
    returning; hence a successful capture for which the analyzer returns
    has at least one turn. *)
Theorem analyze_empty_conversation_raises :
  forall (self : ConversationValidator) (conversation_data : ConversationData)
         (template : ConversationTemplate),
    success conversation_data = true ->
    (conversation conversation_data = [] ->
     _analyze_conversation self conversation_data template = Raise no_data)
    /\ (forall r,
          _analyze_conversation self conversation_data template = Ok r ->
          conversation conversation_data <> []).
Proof.
  intros self d t Hs.
  assert (H : conversation d = [] ->
              _analyze_conversation self d t = Raise no_data).
  { intros Hc. unfold _analyze_conversation. rewrite Hs, Hc. reflexivity. }
  split; [exact H|].
  intros r Hr Hc. rewrite (H Hc) in Hr. discriminate.
Qed.

(** ** Aggregator *)

Lemma Qltb_lt (a b : Q) : Qltb a b = true <-> a < b.
Proof.
  unfold Qltb. rewrite negb_true_iff. split.
  - intros H. apply Qnot_le_lt. intros Hle.
    apply Qle_bool_iff in Hle. congruence.
  - intros H. destruct (Qle_bool b a) eqn:E; [|reflexivity].
    apply Qle_bool_iff in E. exfalso. exact (Qlt_not_le _ _ H E).
Qed.

Lemma append_loop {A B : Type} (f : A -> B) (xs : list A) :
  forall acc, fold_left (fun ys x => ys ++ [f x]) xs acc = acc ++ map f xs.
Proof.
  induction xs as [|x xs IH]; intros acc; simpl.
  - now rewrite app_nil_r.
  - rewrite IH. now rewrite <- app_assoc.
Qed.

(** The collecting loop of [_generate_recommendations] gathers the
    pooled similarities and the pooled violations. *)
Lemma collect_loop (results : list TemplateResult) :
  forall sims issues,
    fold_left collect_step results (sims, issues)
    = (sims ++ pooled_similarities results,
       issues ++ pooled_violations results).
Proof.
  induction results as [|r results IH]; intros sims issues; simpl.
  - now rewrite !app_nil_r.
  - unfold collect_step at 2. destruct (analysis r) as [[err|a]|]; simpl.
    + rewrite IH. now rewrite !app_nil_r.
    + rewrite append_loop, IH. now rewrite <- !app_assoc.
    + apply IH.
Qed.

(** Closed form of [_generate_recommendations]: it always returns, with
    at most one low-alignment line followed by at most one violations
    line. *)
Lemma generate_recommendations_closed_form (order : SetOrder)
  (results : list TemplateResult) :
  let pool := pooled_similarities results in
  let issues := pooled_violations results in
  _generate_recommendations order results =
  Ok ((match pool with
       | [] => []
       | _ :: _ =>
           if Qltb (Qsum pool / len pool) (6 # 10)
           then [low_alignment_message (Qsum pool / len pool)]
           else []
       end)
      ++
      (match issues with
       | [] => []
       | _ :: _ => [violations_message (set_list order issues)]
       end)).
Proof.
  intros pool issues. unfold _generate_recommendations.
  rewrite collect_loop. simpl. fold pool issues. clearbody pool issues.
  destruct pool as [|q pool]; simpl.
  - destruct issues; reflexivity.
  - destruct (Qltb _ _); simpl; destruct issues; reflexivity.
Qed.

(** C8.  The recommendation list is a low-alignment part followed by a
    violations part and nothing else.  The low-alignment part is the one
    message naming the pooled mean to two decimals when the pool of
    [avg_similarity] values is non-empty with mean below 0.6, and empty
    otherwise; the violations part is the one message joining the
    deduplicated pooled violations with commas when there is a violation,
    and empty otherwise.  Pooled values [0.3, 0.4] give the message naming
    0.35; pooled values [0.8, 0.9] give none. *)
Theorem recommendations_follow_the_two_rules :
  forall (order : SetOrder) (results : list TemplateResult),
    let pool := pooled_similarities results in
    let issues := pooled_violations results in
    let mean := Qsum pool / len pool in
    (exists low listed,
        _generate_recommendations order results = Ok (low ++ listed)
        /\ (pool <> [] /\ mean < 6 # 10 ->
            low = [low_alignment_message mean])
        /\ (~ (pool <> [] /\ mean < 6 # 10) -> low = [])
        /\ (issues <> [] ->
            listed = [violations_message (set_list order issues)])
        /\ (issues = [] -> listed = []))
    /\ NoDup (set_list order issues)
    /\ (forall p, In p (set_list order issues) <-> In p issues)
    /\ _generate_recommendations order [scored_result [3 # 10; 4 # 10] []]
       = Ok ["AI response alignment with expected themes is low (0.35). Consider refining training data or prompts."]
    /\ _generate_recommendations order [scored_result [8 # 10; 9 # 10] []]
       = Ok [].
Proof.
  intros order results pool issues mean.
  split; [|split; [apply set_list_NoDup|split; [apply set_list_In|]]].
  - rewrite generate_recommendations_closed_form.
    subst mean. cbv zeta. fold pool issues. clearbody pool issues.
    exists (match pool with
            | [] => []
            | _ :: _ =>
                if Qltb (Qsum pool / len pool) (6 # 10)
                then [low_alignment_message (Qsum pool / len pool)]
                else []
            end),
           (match issues with
            | [] => []
            | _ :: _ => [violations_message (set_list order issues)]
            end).
    split; [reflexivity|]. split; [|split; [|split]].
    + intros [Hne Hlt]. destruct pool; [congruence|].
      apply Qltb_lt in Hlt. now rewrite Hlt.
    + intros Hn. destruct pool as [|q pool]; [reflexivity|].
      destruct (Qltb _ _) eqn:E; [|reflexivity].
      exfalso. apply Hn. split; [discriminate | now apply Qltb_lt].
    + intros Hne. destruct issues; [congruence | reflexivity].
    + intros ->. reflexivity.
  - split; rewrite generate_recommendations_closed_form; reflexivity.
Qed.

Lemma generate_recommendations_returns (order : SetOrder)
  (results : list TemplateResult) :
  exists recs, _generate_recommendations order results = Ok recs.
Proof.
  rewrite generate_recommendations_closed_form. cbv zeta. eauto.
Qed.

(** C3 (as the code behaves).  Aggregating the empty sequence raises the
    [statistics.mean] error instead of producing a report; aggregating a
    non-empty sequence whose items all carry an execution time produces a
    report whose total count is the number of items. *)
Theorem generate_report_counts_nonempty_batches :
  forall (order : SetOrder) (now : string) (results : list TemplateResult),
    (results = [] -> generate_report order now results = Raise no_data)
    /\ (results <> [] ->
        (forall r, In r results -> execution_time r <> None) ->
        exists report,
          generate_report order now results = Ok report
          /\ total_templates_tested (summary report) = List.length results
          /\ successful_conversations (summary report)
             = List.length (filter has_analysis results)
          /\ detailed_results report = results).
Proof.
  intros order now results. split.
  - intros ->. reflexivity.
  - intros Hne Hall. unfold generate_report.
    destruct (mapM_all_ok get_execution_time results) as [times [Ht Hlen]].
    { intros r Hr. unfold get_execution_time.
      destruct (execution_time r) as [q|] eqn:E; [eauto|].
      exfalso. exact (Hall r Hr E). }
    rewrite Ht. simpl. destruct times as [|q times].
    { destruct results; [congruence | discriminate]. }
    simpl. destruct (generate_recommendations_returns order results)
      as [recs Hrecs].
    rewrite Hrecs. simpl. eexists. split; [reflexivity|]. simpl. auto.
Qed.

(** C4 (the defect).  As soon as one item of the batch lacks an
    execution time, as the error records appended by [main] do,
    [generate_report] raises [KeyError('execution_time')]: the item is
    not left out of the mean. *)
Theorem generate_report_raises_on_missing_execution_time :
  forall (order : SetOrder) (now : string) (results : list TemplateResult),
    (exists r, In r results /\ execution_time r = None) ->
    generate_report order now results = Raise (KeyError "execution_time").
Proof.
  intros order now results [r [Hin Hr]]. unfold generate_report.
  rewrite (mapM_first_failure get_execution_time (KeyError "execution_time")).
  - reflexivity.
  - intros x _. unfold get_execution_time.
    destruct (execution_time x); eauto.
  - exists r. split; [assumption|]. unfold get_execution_time. now rewrite Hr.
Qed.

(* ================================================================= *)
(** * Concrete runs *)

Lemma steady_validator_answers :
  forall texts, exists vs,
    encode steady_validator texts = Ok vs /\
    List.length vs = List.length texts.
Proof.
  intros texts. exists (map String.length texts).
  split; [reflexivity | apply length_map].
Defined.

(** The claim of an empty similarity entry after an embedding failure
    does not hold: with a failing embedding model the analysis of a
    one-turn transcript raises. *)
Lemma embedding_failure_counterexample :
  ~ (forall (self : ConversationValidator) (d : ConversationData)
            (t : ConversationTemplate) (td : TranscriptTurn)
            (tt : TemplateTurn) (e : exn),
        success d = true ->
        In td (conversation d) ->
        find (fun tt => (turn tt =? td_turn td)%Z) (conversation_flow t)
        = Some tt ->
        expected_ai_themes tt <> [] ->
        encode self [ai_response td] = Raise e ->
        exists a ts,
          _analyze_conversation self d t = Ok (AnalysisReport a)
          /\ dict_get (turn_key (td_turn td)) (semantic_similarity a)
             = Some ts
          /\ similarity_scores ts = []
          /\ avg_similarity ts == 0).
Proof.
  intros H.
  destruct (H failing_validator (captured [greeting_turn]) intake_template
              greeting_turn opening_turn
              (ServiceError "embedding unavailable"))
    as [a [ts [Ha _]]].
  - reflexivity.
  - now left.
  - reflexivity.
  - discriminate.
  - reflexivity.
  - vm_compute in Ha. discriminate.
Qed.

Lemma embedding_failure_aborts_analysis_witness :
  encode failing_validator [ai_response greeting_turn]
  = Raise (ServiceError "embedding unavailable")
  /\ _analyze_conversation failing_validator (captured [greeting_turn])
       intake_template
     = Raise (ServiceError "embedding unavailable").
Proof.
  split; [reflexivity|].
  destruct (embedding_failure_aborts_analysis failing_validator
              (captured [greeting_turn]) intake_template [] [] greeting_turn
              opening_turn (ServiceError "embedding unavailable"))
    as [_ [H _]].
  - reflexivity.
  - reflexivity.
  - reflexivity.
  - discriminate.
  - left. reflexivity.
  - apply (H []). reflexivity.
Defined.

Lemma analyze_failed_capture_short_circuits_witness :
  success capture_failed = false
  /\ _analyze_conversation failing_validator capture_failed intake_template
     = Ok (ExecutionFailure "Conversation execution failed").
Proof.
  split; [reflexivity|].
  apply (analyze_failed_capture_short_circuits failing_validator
           capture_failed intake_template).
  reflexivity.
Defined.

(** Aggregating the empty batch yields no report. *)
Lemma generate_report_empty_counterexample :
  ~ (exists report,
        generate_report list_order "2025-01-01T00:00:00" [] = Ok report
        /\ total_templates_tested (summary report) = 0%nat).
Proof.
  intros [report [H _]]. vm_compute in H. discriminate.
Qed.

Lemma generate_report_counts_nonempty_batches_witness :
  generate_report list_order "2025-01-01T00:00:00" [] = Raise no_data
  /\ exists report,
       generate_report list_order "2025-01-01T00:00:00"
         [scored_result [3 # 10] []; scored_result [] ["at fault"]]
       = Ok report
       /\ total_templates_tested (summary report) = 2%nat.
Proof.
  split.
  - apply (generate_report_counts_nonempty_batches list_order
             "2025-01-01T00:00:00" []).
    reflexivity.
  - destruct (generate_report_counts_nonempty_batches list_order
                "2025-01-01T00:00:00"
                [scored_result [3 # 10] []; scored_result [] ["at fault"]])
      as [_ H].
    destruct H as [report [Hr [Ht _]]].
    + discriminate.
    + intros r [<-|[<-|[]]]; discriminate.
    + exists report. split; [exact Hr | exact Ht].
Defined.

Lemma generate_report_raises_on_missing_execution_time_witness :
  generate_report list_order "2025-01-01T00:06:00" batch_with_failure
  = Raise (KeyError "execution_time").
Proof.
  apply generate_report_raises_on_missing_execution_time.
  eexists. split; [right; left; reflexivity | reflexivity].
Defined.

Lemma check_compliance_selects_matching_phrases_witness :
  _check_compliance "The Client Was AT FAULT"
    ["at fault"; "guarantee"; "At Fault"]
  = ["at fault"; "At Fault"]
  /\ exists a,
       _analyze_conversation steady_validator
         (captured [greeting_turn; stray_turn]) intake_template
       = Ok (AnalysisReport a)
       /\ violations (compliance_check a) = ["At Fault"]
       /\ is_compliant (compliance_check a) = false.
Proof.
  split.
  - rewrite (proj1 (check_compliance_selects_matching_phrases
                      "The Client Was AT FAULT"
                      ["at fault"; "guarantee"; "At Fault"])).
    reflexivity.
  - destruct (analyze_conversation_returns steady_validator
                (captured [greeting_turn; stray_turn]) intake_template
                steady_validator_answers eq_refl) as [a Ha];
      [discriminate|].
    exists a. split; [exact Ha|].
    destruct (proj2 (proj2 (check_compliance_selects_matching_phrases "" []))
                _ _ _ _ Ha) as [Hv Hc].
    split.
    + rewrite Hv. reflexivity.
    + destruct (is_compliant (compliance_check a)); [|reflexivity].
      destruct Hc as [Hc _]. specialize (Hc eq_refl).
      rewrite Hv in Hc. discriminate.
Defined.

Lemma extraction_confidence_counts_findings_witness :
  dict_get "insurance" extraction_patterns = None
  /\ extracted
       (_extract_information_type steady_validator "my name is Ann"
          "insurance") = false
  /\ extraction_confidence
       (_extract_information_type steady_validator "my name is Ann"
          "insurance") = 0%nat.
Proof.
  split; [reflexivity|].
  destruct (extraction_confidence_counts_findings steady_validator
              "my name is Ann" "insurance") as [_ [_ H]].
  destruct (H eq_refl) as [_ [_ [He Hc]]]. split; assumption.
Defined.

Lemma tone_score_is_indicator_hit_rate_witness :
  In "empathetic" ["empathetic"; "assertive"]
  /\ exists ts,
       dict_get "empathetic"
         (_analyze_tone "I'm Sorry, I UNDERSTAND."
            ["empathetic"; "assertive"]) = Some ts
       /\ score ts = 2 / 4
       /\ 0 <= score ts <= 1
       /\ meets_requirement ts = true.
Proof.
  split; [now left|].
  destruct (tone_score_is_indicator_hit_rate "I'm Sorry, I UNDERSTAND."
              ["empathetic"; "assertive"] "empathetic")
    as [ts [Hget [_ [Hscore [Hb [Hm _]]]]]].
  - now left.
  - exists ts. split; [exact Hget|]. split; [exact Hscore|].
    split; [exact Hb|]. apply Hm. simpl. lia.
Defined.

Lemma recommendations_follow_the_two_rules_witness :
  _generate_recommendations list_order
    [scored_result [3 # 10; 4 # 10] ["b"; "a"; "b"]]
  = Ok ["AI response alignment with expected themes is low (0.35). Consider refining training data or prompts.";
        "Compliance violations detected: a, b. Review AI boundaries and constraints."].
Proof.
  destruct (recommendations_follow_the_two_rules list_order
              [scored_result [3 # 10; 4 # 10] ["b"; "a"; "b"]])
    as [[low [listed [E [Hlow [_ [Hlisted _]]]]]] _].
  rewrite E, Hlow, Hlisted.
  - reflexivity.
  - discriminate.
  - split; [discriminate | reflexivity].
Defined.

Lemma unmatched_turns_are_skipped_witness :
  success (captured [greeting_turn; stray_turn]) = true
  /\ exists a,
       _analyze_conversation steady_validator
         (captured [greeting_turn; stray_turn]) intake_template
       = Ok (AnalysisReport a)
       /\ dict_mem (turn_key 1) (semantic_similarity a) = true
       /\ dict_mem (turn_key 7) (semantic_similarity a) = false.
Proof.
  split; [reflexivity|].
  destruct (unmatched_turns_are_skipped steady_validator
              (captured [greeting_turn; stray_turn]) intake_template
              eq_refl) as [_ [Hkeys Hret]].
  destruct (Hret steady_validator_answers) as [a Ha]; [discriminate|].
  exists a. split; [exact Ha|]. split.
  - apply (Hkeys a Ha 1%Z). exists greeting_turn.
    split; [now left|]. split; reflexivity.
  - destruct (dict_mem (turn_key 7) (semantic_similarity a)) eqn:E;
      [|reflexivity].
    apply (Hkeys a Ha 7%Z) in E. destruct E as [td [Hin [Ht Hm]]].
    destruct Hin as [<-|[<-|[]]]; discriminate.
Defined.

Lemma analyze_empty_conversation_raises_witness :
  success (captured []) = true
  /\ conversation (captured []) = []
  /\ _analyze_conversation steady_validator (captured []) intake_template
     = Raise no_data.
Proof.
  split; [reflexivity|]. split; [reflexivity|].
  apply (proj1 (analyze_empty_conversation_raises steady_validator
                  (captured []) intake_template eq_refl)).
  reflexivity.
Defined.

(* ================================================================= *)
(** * Further properties *)

(** ** Variable substitution *)

Lemma contains_nil_needle (hay : string) : contains hay "" = true.
Proof.
  destruct hay; reflexivity.
Qed.

Lemma contains_cons (c : ascii) (hay needle : string) :
  contains (String c hay) needle
  = prefix needle (String c hay) || contains hay needle.
Proof.
  reflexivity.
Qed.

Lemma prefix_cons_cons (a b : ascii) (w s : string) :
  prefix (String a w) (String b s) = true <-> a = b /\ prefix w s = true.
Proof.
  simpl. destruct (ascii_dec a b) as [->|Hne]; intuition congruence.
Qed.

(** The character [c] does not occur in [w]. *)
Lemma absent_char_cons (c a : ascii) (w : string) :
  contains (String a w) (String c "") = false ->
  a <> c /\ contains w (String c "") = false.
Proof.
  rewrite contains_cons, orb_false_iff. intros [Hp Hc]. split; [|exact Hc].
  intros ->. simpl in Hp. destruct (ascii_dec c c); [|congruence].
  destruct w; discriminate.
Qed.

(** No occurrence of [w] starts inside a text in which the first
    character of [w] does not occur. *)
Lemma contains_app_skip (c : ascii) (w new rest : string) :
  contains new (String c "") = false ->
  contains (new ++ rest) (String c w) = contains rest (String c w).
Proof.
  induction new as [|a new IH]; intros H; [reflexivity|].
  apply absent_char_cons in H as [Hne Hc].
  change (String a new ++ rest)%string with (String a (new ++ rest)).
  rewrite contains_cons, (IH Hc).
  destruct (prefix (String c w) (String a (new ++ rest))) eqn:E;
    [|reflexivity].
  apply prefix_cons_cons in E as [E _]. congruence.
Qed.

Lemma replace_from_cons (old new : string) (c : ascii) (s : string) :
  replace_from old new 0 (String c s)
  = if prefix old (String c s)
    then (new ++ replace_from old new (String.length old - 1) s)%string
    else String c (replace_from old new 0 s).
Proof.
  reflexivity.
Qed.

(** Where the replaced text starts with a character foreign to [w], a
    prefix [w] of the outcome was already a prefix of the input. *)
Lemma prefix_of_replaced (old : string) (n0 : ascii) (new' w : string) :
  contains w (String n0 "") = false ->
  forall s,
    prefix w (replace_from old (String n0 new') 0 s) = true ->
    prefix w s = true.
Proof.
  induction w as [|c1 w IH]; intros Hw s H.
  - now destruct s.
  - apply absent_char_cons in Hw as [Hne Hw].
    destruct s as [|c s]; [exact H|].
    rewrite replace_from_cons in H.
    destruct (prefix old (String c s)).
    + simpl in H. destruct (ascii_dec c1 n0); [congruence | discriminate].
    + apply prefix_cons_cons in H as [-> H].
      apply prefix_cons_cons. split; [reflexivity|]. now apply IH.
Qed.

(** Replacing [old] by a text without the first character of [w], and
    starting with a character foreign to [w], creates no occurrence of
    [w]. *)
Lemma replace_creates_no_occurrence (old : string) (n0 c1 : ascii)
  (new' w : string) :
  contains (String c1 w) (String n0 "") = false ->
  contains (String n0 new') (String c1 "") = false ->
  forall s skip,
    contains s (String c1 w) = false ->
    contains (replace_from old (String n0 new') skip s) (String c1 w) = false.
Proof.
  intros Hw Hnew. induction s as [|c s IH]; intros skip Hs; [exact Hs|].
  rewrite contains_cons in Hs. apply orb_false_iff in Hs as [Hp Hs].
  destruct skip as [|k]; [|now apply IH].
  rewrite replace_from_cons. destruct (prefix old (String c s)) eqn:E.
  - rewrite (contains_app_skip c1 w _ _ Hnew). now apply IH.
  - rewrite contains_cons, (IH 0%nat Hs), orb_false_r.
    destruct (prefix (String c1 w) (String c (replace_from old _ 0 s)))
      eqn:P; [|reflexivity].
    assert (Q : prefix (String c1 w)
                  (replace_from old (String n0 new') 0 (String c s)) = true).
    { now rewrite replace_from_cons, E. }
    apply (prefix_of_replaced old n0 new' _ Hw) in Q. congruence.
Qed.

(** Under the same conditions on [old] itself, no occurrence of [old]
    is left. *)
Lemma replace_leaves_no_occurrence (n0 c1 : ascii) (new' old' : string) :
  contains (String c1 old') (String n0 "") = false ->
  contains (String n0 new') (String c1 "") = false ->
  forall s skip,
    contains (replace_from (String c1 old') (String n0 new') skip s)
      (String c1 old') = false.
Proof.
  intros Hold Hnew. induction s as [|c s IH]; intros skip; [reflexivity|].
  destruct skip as [|k]; [|apply IH].
  rewrite replace_from_cons.
  destruct (prefix (String c1 old') (String c s)) eqn:E.
  - rewrite (contains_app_skip c1 old' _ _ Hnew). apply IH.
  - rewrite contains_cons, IH, orb_false_r.
    destruct (prefix (String c1 old')
                (String c (replace_from (String c1 old') _ 0 s)))
      eqn:P; [|reflexivity].
    assert (Q : prefix (String c1 old')
                  (replace_from (String c1 old') (String n0 new') 0
                     (String c s)) = true).
    { now rewrite replace_from_cons, E. }
    apply (prefix_of_replaced _ n0 new' _ Hold) in Q. congruence.
Qed.

Lemma replace_absent (old new s : string) :
  contains s old = false -> replace old new s = s.
Proof.
  unfold replace. induction s as [|c s IH]; intros H; [reflexivity|].
  rewrite contains_cons in H. apply orb_false_iff in H as [Hp Hs].
  rewrite replace_from_cons, Hp. now rewrite (IH Hs).
Qed.

Lemma conversation_turns_map (template : ConversationTemplate) :
  conversation_turns template
  = map (fun t => substitute_variables (user_input t))
      (conversation_flow template).
Proof.
  unfold conversation_turns.
  now rewrite (append_loop (fun t => substitute_variables (user_input t))).
Qed.

(** X1.  Every message the script sends is free of the three variables:
    after the substitutions no [{name}], [{city}] or [{state}] is left,
    whatever the template text; and there is one message per template
    turn. *)
Theorem conversation_turns_have_no_variable :
  forall (template : ConversationTemplate),
    List.length (conversation_turns template)
    = List.length (conversation_flow template)
    /\ forall message,
         In message (conversation_turns template) ->
         contains message "{name}" = false
         /\ contains message "{city}" = false
         /\ contains message "{state}" = false.
Proof.
  intros template. rewrite conversation_turns_map. split.
  - apply length_map.
  - intros message Hin. apply in_map_iff in Hin as [t [<- _]].
    unfold substitute_variables, replace.
    set (s1 := replace_from "{name}" "John Smith" 0 (user_input t)).
    set (s2 := replace_from "{city}" "San Francisco" 0 s1).
    assert (N1 : contains s1 "{name}" = false).
    { apply replace_leaves_no_occurrence; reflexivity. }
    assert (N2 : contains s2 "{name}" = false).
    { apply replace_creates_no_occurrence; [reflexivity | reflexivity | exact N1]. }
    assert (C2 : contains s2 "{city}" = false).
    { apply replace_leaves_no_occurrence; reflexivity. }
    split; [|split].
    + apply replace_creates_no_occurrence; [reflexivity | reflexivity | exact N2].
    + apply replace_creates_no_occurrence; [reflexivity | reflexivity | exact C2].
    + apply replace_leaves_no_occurrence; reflexivity.
Qed.

(** X2.  A template text that mentions none of the three variables is
    sent as it is. *)
Theorem substitute_variables_keeps_plain_text :
  forall (user_input : string),
    contains user_input "{name}" = false ->
    contains user_input "{city}" = false ->
    contains user_input "{state}" = false ->
    substitute_variables user_input = user_input.
Proof.
  intros s Hn Hc Hs. unfold substitute_variables.
  rewrite (replace_absent "{name}" _ s Hn).
  rewrite (replace_absent "{city}" _ s Hc).
  apply (replace_absent "{state}" _ s Hs).
Qed.

(** ** Dictionaries, continued *)

Lemma bind_ok {A B : Type} (m : exc A) (k : A -> exc B) (b : B) :
  bind m k = Ok b -> exists a, m = Ok a /\ k a = Ok b.
Proof.
  destruct m as [a|e]; simpl; [eauto | discriminate].
Qed.

Lemma dict_set_In {V : Type} (k : string) (v : V) (d : dict V)
  (k' : string) (v' : V) :
  In (k', v') (dict_set k v d) -> (k' = k /\ v' = v) \/ In (k', v') d.
Proof.
  induction d as [|[k0 v0] d IH]; simpl.
  - intros [[= <- <-]|[]]. now left.
  - destruct (String.eqb k k0) eqn:E; simpl.
    + apply String.eqb_eq in E. subst k0.
      intros [[= <- <-]|H]; [now left | right; now right].
    + intros [H|H]; [right; now left|].
      destruct (IH H) as [H'|H']; [now left | right; now right].
Qed.

Lemma dict_set_keys {V : Type} (k : string) (v : V) (d : dict V)
  (k' : string) :
  In k' (map fst (dict_set k v d)) <-> k' = k \/ In k' (map fst d).
Proof.
  induction d as [|[k0 v0] d IH]; simpl.
  - intuition.
  - destruct (String.eqb k k0) eqn:E; simpl.
    + apply String.eqb_eq in E. subst k0. intuition.
    + rewrite IH. intuition.
Qed.

Lemma dict_set_NoDup {V : Type} (k : string) (v : V) (d : dict V) :
  NoDup (map fst d) -> NoDup (map fst (dict_set k v d)).
Proof.
  induction d as [|[k0 v0] d IH]; simpl; intros H.
  - constructor; [intros [] | constructor].
  - inversion H as [|? ? Hnin Hnd]; subst.
    destruct (String.eqb k k0) eqn:E; simpl.
    + now constructor.
    + constructor; [|now apply IH].
      rewrite dict_set_keys. intros [->|Hin]; [|contradiction].
      rewrite String.eqb_refl in E. discriminate.
Qed.

Lemma dict_set_length {V : Type} (k : string) (v : V) (d : dict V) :
  (List.length (dict_set k v d) <= S (List.length d))%nat.
Proof.
  induction d as [|[k0 v0] d IH]; simpl; [lia|].
  destruct (String.eqb k k0); simpl; lia.
Qed.

Lemma dict_mem_keys {V : Type} (k : string) (d : dict V) :
  dict_mem k d = true <-> In k (map fst d).
Proof.
  unfold dict_mem. induction d as [|[k0 v0] d IH]; simpl.
  - split; [discriminate | intros []].
  - destruct (String.eqb k k0) eqn:E.
    + apply String.eqb_eq in E. subst. intuition.
    + apply String.eqb_neq in E. rewrite IH. intuition congruence.
Qed.

(** What a dict built from a list of pairs holds. *)
Lemma dict_fold_facts {V : Type} (kvs : list (string * V)) :
  forall d,
    let d' := fold_left (fun d kv => dict_set (fst kv) (snd kv) d) kvs d in
    (NoDup (map fst d) -> NoDup (map fst d'))
    /\ (forall k, In k (map fst d') <->
                  In k (map fst d) \/ In k (map fst kvs))
    /\ (forall k v, In (k, v) d' -> In (k, v) d \/ In (k, v) kvs)
    /\ (List.length d' <= List.length d + List.length kvs)%nat.
Proof.
  induction kvs as [|[k0 v0] kvs IH]; intros d; simpl.
  - repeat split; try tauto; try lia.
  - destruct (IH (dict_set k0 v0 d)) as [N [K [I L]]]. simpl in *.
    split; [|split; [|split]].
    + intros H. apply N. now apply dict_set_NoDup.
    + intros k. rewrite K, dict_set_keys. intuition.
    + intros k v H. destruct (I k v H) as [H'|H']; [|right; now right].
      destruct (dict_set_In _ _ _ _ _ H') as [[-> ->]|H''];
        [right; now left | now left].
    + pose proof (dict_set_length k0 v0 d). lia.
Qed.

Lemma in_keys_combine {A B : Type} (xs : list A) (ys : list B) (x : A) :
  (List.length xs <= List.length ys)%nat ->
  In x xs -> In x (map fst (combine xs ys)).
Proof.
  revert ys; induction xs as [|a xs IH]; intros ys L H; [contradiction|].
  destruct ys as [|b ys]; simpl in L; [lia|]. simpl.
  destruct H as [->|H]; [now left | right; apply IH; [lia | exact H]].
Qed.

(** ** Means *)

Lemma len_cons {A : Type} (x : A) (xs : list A) : len (x :: xs) == 1 + len xs.
Proof.
  unfold len. simpl List.length. rewrite Nat2Z.inj_succ. unfold Z.succ.
  rewrite inject_Z_plus. simpl. ring.
Qed.

Lemma Qsum_between (lo hi : Q) (xs : list Q) :
  (forall x, In x xs -> lo <= x <= hi) ->
  lo * len xs <= Qsum xs <= hi * len xs.
Proof.
  induction xs as [|x xs IH]; intros H.
  - unfold len. simpl. rewrite !Qmult_0_r. split; apply Qle_refl.
  - destruct (H x (or_introl eq_refl)) as [Hlo Hhi].
    destruct IH as [Ilo Ihi]; [intros y Hy; apply H; now right|].
    simpl Qsum. rewrite len_cons, !Qmult_plus_distr_r, !Qmult_1_r.
    split; now apply Qplus_le_compat.
Qed.

(** The mean of a non-empty list lies between any two bounds of its
    elements. *)
Lemma mean_between (lo hi : Q) (xs : list Q) :
  xs <> [] ->
  (forall x, In x xs -> lo <= x <= hi) ->
  lo <= Qsum xs / len xs <= hi.
Proof.
  intros Hne H. pose proof (len_pos xs Hne) as Hpos.
  destruct (Qsum_between lo hi xs H) as [Hlo Hhi]. split.
  - now apply Qle_shift_div_l.
  - now apply Qle_shift_div_r.
Qed.

(** ** Similarity scorer, continued *)

(** How a returned score dict was obtained. *)
Lemma calculate_semantic_similarity_inv (self : ConversationValidator)
  (ai : string) (themes : list string) (scores : dict Q) :
  _calculate_semantic_similarity self ai themes = Ok scores ->
  (themes = [] /\ scores = [])
  \/ exists x v w,
       encode self [ai] = Ok (x :: v)
       /\ encode self themes = Ok w
       /\ scores = dict_of_list (combine themes (map (cosine self x) w)).
Proof.
  unfold _calculate_semantic_similarity. destruct themes as [|th themes].
  - intros [= <-]. now left.
  - intros H. right.
    apply bind_ok in H as [v [Hv H]]. apply bind_ok in H as [w [Hw H]].
    apply bind_ok in H as [sims [Hs H]]. injection H as <-.
    destruct v as [|x v]; [discriminate|]. simpl in Hs. injection Hs as <-.
    now exists x, v, w.
Qed.

(** X3.  The score dict of one turn has no repeated key, its keys are
    themes of the template turn, and it has at most one entry per theme
    (repeated theme strings share one entry); with an embedding model
    that answers every call with one vector per text, every theme is a
    key. *)
Theorem similarity_scores_are_keyed_by_theme :
  forall (self : ConversationValidator) (ai_response : string)
         (expected_themes : list string) (scores : dict Q),
    _calculate_semantic_similarity self ai_response expected_themes
    = Ok scores ->
    NoDup (map fst scores)
    /\ (forall theme, dict_mem theme scores = true -> In theme expected_themes)
    /\ (List.length scores <= List.length expected_themes)%nat
    /\ ((forall texts, exists vs,
            encode self texts = Ok vs /\
            List.length vs = List.length texts) ->
        forall theme, In theme expected_themes ->
                      dict_mem theme scores = true).
Proof.
  intros self ai themes scores H.
  destruct (calculate_semantic_similarity_inv self ai themes scores H)
    as [[-> ->]|[x [v [w [Hv [Hw ->]]]]]].
  - repeat split; simpl; try constructor; try discriminate. intros _ th [].
  - unfold dict_of_list.
    destruct (dict_fold_facts
                (combine themes (map (cosine self x) w)) [])
      as [N [K [_ L]]].
    cbv zeta in N, K, L. simpl in N, K, L.
    split; [apply N; constructor|]. split; [|split].
    + intros th Hth. apply dict_mem_keys, K in Hth as [[]|Hth].
      apply in_map_iff in Hth as [[k q] [<- Hin]].
      now apply in_combine_l in Hin.
    + rewrite length_combine in L. lia.
    + intros Henc th Hth. apply dict_mem_keys, K. right.
      apply in_keys_combine; [|exact Hth].
      destruct (Henc themes) as [w' [Hw' Lw']].
      rewrite Hw in Hw'. injection Hw' as <-. rewrite length_map. lia.
Qed.

(** ** Turn analyzer: the entries of the similarity section *)

Section SimilarityEntries.

Variable self : ConversationValidator.
Variable template : ConversationTemplate.

(** What one iteration with a template turn stores. *)
Lemma similarity_step_matched (acc acc' : dict TurnSimilarity)
  (td : TranscriptTurn) (tt : TemplateTurn) :
  find (fun tt => (turn tt =? td_turn td)%Z) (conversation_flow template)
  = Some tt ->
  similarity_step self template acc td = Ok acc' ->
  exists scores,
    _calculate_semantic_similarity self (ai_response td)
      (expected_ai_themes tt) = Ok scores
    /\ acc' = dict_set (turn_key (td_turn td))
                {| expected_themes := expected_ai_themes tt;
                   similarity_scores := scores;
                   avg_similarity :=
                     match scores with
                     | [] => 0
                     | _ :: _ =>
                         Qsum (dict_values scores) / len (dict_values scores)
                     end |}
                acc.
Proof.
  intros Hf H. unfold similarity_step in H. rewrite Hf in H.
  apply bind_ok in H as [scores [Hs H]]. exists scores. split; [exact Hs|].
  apply bind_ok in H as [avg [Havg H]]. injection H as <-.
  destruct scores as [|p scores]; simpl in Havg; injection Havg as <-;
    reflexivity.
Qed.

Lemma similarity_step_other_key (acc acc' : dict TurnSimilarity)
  (td : TranscriptTurn) (n : Z) :
  similarity_step self template acc td = Ok acc' ->
  td_turn td <> n ->
  dict_get (turn_key n) acc' = dict_get (turn_key n) acc.
Proof.
  intros H Hne.
  destruct (find (fun tt => (turn tt =? td_turn td)%Z)
              (conversation_flow template)) as [tt|] eqn:Hf.
  - destruct (similarity_step_matched acc acc' td tt Hf H) as [sc [_ ->]].
    apply dict_get_set_other. intros E. apply turn_key_inj in E. congruence.
  - unfold similarity_step in H. rewrite Hf in H. now injection H as <-.
Qed.

Lemma similarity_loop_other_key (conv : list TranscriptTurn) (n : Z) :
  (forall td, In td conv -> td_turn td <> n) ->
  forall acc acc',
    foldM (similarity_step self template) conv acc = Ok acc' ->
    dict_get (turn_key n) acc' = dict_get (turn_key n) acc.
Proof.
  induction conv as [|td conv IH]; intros Hn acc acc' H; simpl in H.
  - now injection H as <-.
  - apply bind_ok in H as [acc1 [H1 H]].
    rewrite (IH (fun td' Hin => Hn td' (or_intror Hin)) acc1 acc' H).
    apply (similarity_step_other_key acc acc1 td n H1).
    apply Hn. now left.
Qed.

(** An invariant of the entries is kept by the loop when every
    iteration with a template turn stores an entry that has it. *)
Lemma similarity_loop_invariant (good : TurnSimilarity -> Prop) :
  (forall td tt scores,
      find (fun tt => (turn tt =? td_turn td)%Z) (conversation_flow template)
      = Some tt ->
      _calculate_semantic_similarity self (ai_response td)
        (expected_ai_themes tt) = Ok scores ->
      good {| expected_themes := expected_ai_themes tt;
              similarity_scores := scores;
              avg_similarity :=
                match scores with
                | [] => 0
                | _ :: _ =>
                    Qsum (dict_values scores) / len (dict_values scores)
                end |}) ->
  forall conv acc acc',
    foldM (similarity_step self template) conv acc = Ok acc' ->
    (forall k ts, In (k, ts) acc -> good ts) ->
    forall k ts, In (k, ts) acc' -> good ts.
Proof.
  intros Hgood. induction conv as [|td conv IH]; intros acc acc' H Hacc;
    simpl in H.
  - now injection H as <-.
  - apply bind_ok in H as [acc1 [H1 H]]. apply (IH acc1 acc' H).
    intros k ts Hin.
    destruct (find (fun tt => (turn tt =? td_turn td)%Z)
                (conversation_flow template)) as [tt|] eqn:Hf.
    + destruct (similarity_step_matched acc acc1 td tt Hf H1)
        as [sc [Hsc ->]].
      apply dict_set_In in Hin as [[_ ->]|Hin]; [|now apply (Hacc k)].
      now apply (Hgood td tt).
    + unfold similarity_step in H1. rewrite Hf in H1. injection H1 as <-.
      now apply (Hacc k).
Qed.

End SimilarityEntries.

(** X4.  In a returned report, the entry under [turn_n] is the one of
    the last transcript turn numbered [n]: its themes are those of the
    template turn, its scores are what the scorer returned for that
    turn's response, and its [avg_similarity] is the mean of the scores,
    or 0 when there is none. *)
Theorem similarity_entry_is_the_last_turns :
  forall (self : ConversationValidator) (conversation_data : ConversationData)
         (template : ConversationTemplate) (a : Analysis)
         (earlier later : list TranscriptTurn) (turn_data : TranscriptTurn)
         (template_turn : TemplateTurn),
    _analyze_conversation self conversation_data template
    = Ok (AnalysisReport a) ->
    conversation conversation_data = earlier ++ turn_data :: later ->
    find (fun tt => (turn tt =? td_turn turn_data)%Z)
      (conversation_flow template) = Some template_turn ->
    (forall td, In td later -> td_turn td <> td_turn turn_data) ->
    exists scores,
      _calculate_semantic_similarity self (ai_response turn_data)
        (expected_ai_themes template_turn) = Ok scores
      /\ dict_get (turn_key (td_turn turn_data)) (semantic_similarity a)
         = Some {| expected_themes := expected_ai_themes template_turn;
                   similarity_scores := scores;
                   avg_similarity :=
                     match scores with
                     | [] => 0
                     | _ :: _ =>
                         Qsum (dict_values scores) / len (dict_values scores)
                     end |}.
Proof.
  intros self d t a earlier later td tt Ha Hconv Hf Hlater.
  apply analyze_conversation_semantic in Ha. unfold similarity_phase in Ha.
  rewrite Hconv, foldM_app in Ha. apply bind_ok in Ha as [acc1 [_ Ha]].
  simpl in Ha. apply bind_ok in Ha as [acc2 [H2 Ha]].
  destruct (similarity_step_matched self t acc1 acc2 td tt Hf H2)
    as [scores [Hs ->]].
  exists scores. split; [exact Hs|].
  rewrite (similarity_loop_other_key self t later (td_turn td) Hlater _ _ Ha).
  apply dict_get_set_same.
Qed.

(** X5.  When the cosine kernel takes its values in [0,1], every score
    and every [avg_similarity] of a returned report lies in [0,1]. *)
Theorem similarity_scores_stay_in_unit_interval :
  forall (self : ConversationValidator) (conversation_data : ConversationData)
         (template : ConversationTemplate) (a : Analysis),
    (forall x y, 0 <= cosine self x y <= 1) ->
    _analyze_conversation self conversation_data template
    = Ok (AnalysisReport a) ->
    forall key entry,
      In (key, entry) (semantic_similarity a) ->
      (forall theme q, In (theme, q) (similarity_scores entry) ->
                       0 <= q <= 1)
      /\ 0 <= avg_similarity entry <= 1.
Proof.
  intros self d t a Hcos Ha key entry Hin.
  apply analyze_conversation_semantic in Ha. unfold similarity_phase in Ha.
  refine (similarity_loop_invariant self t
            (fun e => (forall theme q, In (theme, q) (similarity_scores e) ->
                                       0 <= q <= 1)
                      /\ 0 <= avg_similarity e <= 1)
            _ (conversation d) [] _ Ha _ key entry Hin);
    [|intros k ts []].
  intros td tt scores _ Hs. cbn [similarity_scores avg_similarity].
  assert (Hq : forall theme q, In (theme, q) scores -> 0 <= q <= 1).
  { intros theme q Hq.
    destruct (calculate_semantic_similarity_inv self _ _ _ Hs)
      as [[_ ->]|[x [v [w [_ [_ ->]]]]]]; [contradiction|].
    unfold dict_of_list in Hq.
    destruct (dict_fold_facts
                (combine (expected_ai_themes tt) (map (cosine self x) w)) [])
      as [_ [_ [I _]]].
    destruct (I theme q Hq) as [[]|Hc].
    apply in_combine_r, in_map_iff in Hc as [y [<- _]]. apply Hcos. }
  split; [exact Hq|].
  destruct scores as [|[th0 q0] scores].
  - split; [apply Qle_refl | discriminate].
  - apply mean_between; [discriminate|].
    intros q Hv. unfold dict_values in Hv.
    apply in_map_iff in Hv as [[th q'] [<- Hv]]. now apply (Hq th).
Qed.

(** X6.  The embedding model is consulted only for turns with themes:
    when no template turn lists a theme, the analysis of a non-empty
    successful capture returns for every validator, even one whose
    embedding calls all raise, and every similarity entry is empty with
    [avg_similarity = 0]. *)
Theorem analysis_without_themes_needs_no_embedding :
  forall (self : ConversationValidator) (conversation_data : ConversationData)
         (template : ConversationTemplate),
    success conversation_data = true ->
    conversation conversation_data <> [] ->
    (forall tt, In tt (conversation_flow template) ->
                expected_ai_themes tt = []) ->
    exists a,
      _analyze_conversation self conversation_data template
      = Ok (AnalysisReport a)
      /\ forall key entry,
           In (key, entry) (semantic_similarity a) ->
           similarity_scores entry = [] /\ avg_similarity entry = 0.
Proof.
  intros self d t Hs Hne Hthemes.
  assert (Hstep : forall acc td, exists acc',
             similarity_step self t acc td = Ok acc').
  { intros acc td. unfold similarity_step.
    destruct (find _ _) as [tt|] eqn:Hf; [|eauto].
    apply find_some in Hf as [Hin _]. rewrite (Hthemes tt Hin). simpl. eauto. }
  assert (Hloop : forall conv acc, exists acc',
             foldM (similarity_step self t) conv acc = Ok acc').
  { induction conv as [|td conv IH]; intros acc; simpl; [eauto|].
    destruct (Hstep acc td) as [acc1 H1]. rewrite H1. simpl. apply IH. }
  destruct (Hloop (conversation d) []) as [sem Hsem].
  assert (Ha : exists a, _analyze_conversation self d t
                         = Ok (AnalysisReport a)
                         /\ semantic_similarity a = sem).
  { unfold _analyze_conversation, similarity_phase. rewrite Hs, Hsem. simpl.
    destruct (conversation d) as [|td conv]; [congruence|]. simpl.
    eexists. split; reflexivity. }
  destruct Ha as [a [Ha <-]]. exists a. split; [exact Ha|].
  intros key entry Hin.
  refine (similarity_loop_invariant self t
            (fun e => similarity_scores e = [] /\ avg_similarity e = 0)
            _ (conversation d) [] _ Hsem _ key entry Hin);
    [|intros k ts []].
  intros td tt scores Hf Hsc. apply find_some in Hf as [Hin' _].
  rewrite (Hthemes tt Hin') in Hsc. injection Hsc as <-. split; reflexivity.
Qed.

Lemma mean_at_most (hi : Q) (xs : list Q) :
  xs <> [] -> (forall x, In x xs -> x <= hi) -> Qsum xs / len xs <= hi.
Proof.
  intros Hne H. apply Qle_shift_div_r; [now apply len_pos|].
  clear Hne. induction xs as [|x xs IH].
  - unfold len. simpl. rewrite Qmult_0_r. apply Qle_refl.
  - simpl Qsum. rewrite len_cons, Qmult_plus_distr_r, Qmult_1_r.
    apply Qplus_le_compat; [apply H; now left|].
    apply IH. intros y Hy. apply H. now right.
Qed.

(** ** Turn analyzer: performance metrics *)

Lemma fold_max_spec (xs : list Z) :
  forall x,
    (x <= fold_left Z.max xs x)%Z
    /\ (forall y, In y xs -> (y <= fold_left Z.max xs x)%Z)
    /\ (fold_left Z.max xs x = x \/ In (fold_left Z.max xs x) xs).
Proof.
  induction xs as [|a xs IH]; intros x; simpl.
  - split; [lia|]. split; [intros y [] | now left].
  - destruct (IH (Z.max x a)) as [H1 [H2 H3]]. split; [lia|]. split.
    + intros y [<-|Hy]; [lia | now apply H2].
    + destruct H3 as [H3|H3]; [|right; now right].
      rewrite H3. destruct (Z.max_spec x a) as [[_ ->]|[_ ->]];
        [right; now left | now left].
Qed.

(** The [performance_metrics] section of a returned report. *)
Lemma analyze_conversation_performance (self : ConversationValidator)
  (d : ConversationData) (t : ConversationTemplate) (a : Analysis) :
  _analyze_conversation self d t = Ok (AnalysisReport a) ->
  let times := map response_time_ms (conversation d) in
  statistics_mean (map inject_Z times)
  = Ok (avg_response_time_ms (performance_metrics a))
  /\ py_max times = Ok (max_response_time_ms (performance_metrics a))
  /\ total_turns (performance_metrics a) = List.length (conversation d)
  /\ successful_turns (performance_metrics a)
     = List.length
         (filter (fun t => (10 <? String.length (ai_response t))%nat)
            (conversation d)).
Proof.
  unfold _analyze_conversation.
  destruct (success d); simpl; [|discriminate].
  destruct (similarity_phase self t (conversation d)); simpl; [|discriminate].
  destruct (statistics_mean _) as [avg|]; simpl; [|discriminate].
  destruct (py_max _) as [mx|]; simpl; [|discriminate].
  intros [= <-]. simpl. repeat split; reflexivity.
Qed.

(** X7.  In a returned report the turn counts and timings are
    consistent: [total_turns] is the number of turns,
    [successful_turns] does not exceed it, [max_response_time_ms] is the
    response time of some turn and bounds all of them, and
    [avg_response_time_ms] lies between any lower bound of the response
    times and the maximum. *)
Theorem performance_metrics_are_consistent :
  forall (self : ConversationValidator) (conversation_data : ConversationData)
         (template : ConversationTemplate) (a : Analysis),
    _analyze_conversation self conversation_data template
    = Ok (AnalysisReport a) ->
    let p := performance_metrics a in
    total_turns p = List.length (conversation conversation_data)
    /\ (successful_turns p <= total_turns p)%nat
    /\ (forall td, In td (conversation conversation_data) ->
                   (response_time_ms td <= max_response_time_ms p)%Z)
    /\ (exists td, In td (conversation conversation_data) /\
                   response_time_ms td = max_response_time_ms p)
    /\ avg_response_time_ms p <= inject_Z (max_response_time_ms p)
    /\ (forall lo,
          (forall td, In td (conversation conversation_data) ->
                      (lo <= response_time_ms td)%Z) ->
          inject_Z lo <= avg_response_time_ms p).
Proof.
  intros self d t a Ha p.
  destruct (analyze_conversation_performance self d t a Ha)
    as [Havg [Hmax [Htot Hsucc]]].
  fold p in Havg, Hmax, Htot, Hsucc.
  destruct (conversation d) as [|td0 conv] eqn:Hconv; [discriminate|].
  simpl in Hmax. injection Hmax as Hmax.
  destruct (fold_max_spec (map response_time_ms conv) (response_time_ms td0))
    as [M1 [M2 M3]].
  rewrite Hmax in M1, M2, M3.
  assert (Hall : forall td, In td (td0 :: conv) ->
                            (response_time_ms td <= max_response_time_ms p)%Z).
  { intros td [<-|Hin]; [exact M1|]. apply M2. now apply in_map. }
  simpl in Havg. injection Havg as Havg.
  assert (Hne : map inject_Z (map response_time_ms (td0 :: conv)) <> [])
    by discriminate.
  assert (Hup : forall x,
             In x (map inject_Z (map response_time_ms (td0 :: conv))) ->
             x <= inject_Z (max_response_time_ms p)).
  { intros x Hx. apply in_map_iff in Hx as [z [<- Hz]].
    apply in_map_iff in Hz as [td [<- Htd]].
    rewrite <- Zle_Qle. now apply Hall. }
  split; [exact Htot|]. split.
  { rewrite Hsucc, Htot. apply filter_length_le. }
  split; [exact Hall|]. split.
  { destruct M3 as [M3|M3].
    - exists td0. split; [now left | now symmetry].
    - apply in_map_iff in M3 as [td [E Hin]]. exists td.
      split; [now right | exact E]. }
  split.
  - rewrite <- Havg.
    now apply (mean_at_most (inject_Z (max_response_time_ms p))
                 (map inject_Z (map response_time_ms (td0 :: conv)))).
  - intros lo Hlo. rewrite <- Havg.
    apply (mean_between (inject_Z lo) (inject_Z (max_response_time_ms p))
             (map inject_Z (map response_time_ms (td0 :: conv))));
      [exact Hne|].
    intros x Hx. split; [|now apply Hup].
    apply in_map_iff in Hx as [z [<- Hz]].
    apply in_map_iff in Hz as [td [<- Htd]].
    rewrite <- Zle_Qle. now apply Hlo.
Qed.

(** ** Turn analyzer: the sections computed over the full text *)

Lemma analyze_conversation_sections (self : ConversationValidator)
  (d : ConversationData) (t : ConversationTemplate) (a : Analysis) :
  _analyze_conversation self d t = Ok (AnalysisReport a) ->
  let full := join " " (map ai_response (conversation d)) in
  information_extraction a
  = fold_left
      (fun d info_type =>
         dict_set info_type (_extract_information_type self full info_type) d)
      (information_capture (validation_criteria t)) []
  /\ tone_analysis a
     = _analyze_tone full (tone_requirements (validation_criteria t)).
Proof.
  unfold _analyze_conversation.
  destruct (success d); simpl; [|discriminate].
  destruct (similarity_phase self t (conversation d)); simpl; [|discriminate].
  destruct (statistics_mean _); simpl; [|discriminate].
  destruct (py_max _); simpl; [|discriminate].
  intros [= <-]. simpl. split; reflexivity.
Qed.

Lemma fold_set_NoDup {V : Type} (f : string -> V) (ks : list string) :
  forall d,
    NoDup (map fst d) ->
    NoDup (map fst (fold_left (fun d r => dict_set r (f r) d) ks d)).
Proof.
  induction ks as [|k ks IH]; intros d H; simpl; [exact H|].
  apply IH. now apply dict_set_NoDup.
Qed.

Lemma length_pos_iff_In {A : Type} (l : list A) :
  (0 < List.length l)%nat <-> exists x, In x l.
Proof.
  destruct l as [|x l]; simpl.
  - split; [lia | intros [x []]].
  - split; [intros _; exists x; now left | lia].
Qed.

(** X8.  A returned report holds, for each requested information type,
    the extraction result computed over the responses of all turns joined
    by single spaces, and no entry for a type that was not requested; its
    tone section is the tone analysis of that same text. *)
Theorem report_sections_cover_the_full_text :
  forall (self : ConversationValidator) (conversation_data : ConversationData)
         (template : ConversationTemplate) (a : Analysis),
    _analyze_conversation self conversation_data template
    = Ok (AnalysisReport a) ->
    let full :=
      join " " (map ai_response (conversation conversation_data)) in
    (forall info_type,
        dict_get info_type (information_extraction a)
        = if mem info_type (information_capture (validation_criteria template))
          then Some (_extract_information_type self full info_type)
          else None)
    /\ NoDup (map fst (information_extraction a))
    /\ tone_analysis a
       = _analyze_tone full (tone_requirements (validation_criteria template)).
Proof.
  intros self d t a Ha full.
  destruct (analyze_conversation_sections self d t a Ha) as [Hi Ht].
  fold full in Hi, Ht. split; [|split; [|exact Ht]].
  - intros ty. rewrite Hi.
    apply (dict_get_fold_set (_extract_information_type self full)).
  - rewrite Hi.
    apply (fold_set_NoDup (_extract_information_type self full)).
    constructor.
Qed.

(** ** Information extractor, continued *)

(** X9.  [extracted] holds exactly when the recogniser found an entity
    whose label the rule of the information type lists, or a keyword of
    the rule occurs in the lower-cased text. *)
Theorem extracted_iff_entity_or_keyword :
  forall (self : ConversationValidator) (text info_type : string),
    let pattern :=
      dict_get_default info_type {| entities := None; keywords := None |}
        extraction_patterns in
    extracted (_extract_information_type self text info_type) = true <->
    (exists labels ent,
        entities pattern = Some labels /\
        In ent (nlp self text) /\ In (label_ ent) labels)
    \/ (exists kws kw,
          keywords pattern = Some kws /\ In kw kws /\
          exists pre post, lower text = (pre ++ kw ++ post)%string).
Proof.
  intros self text ty pattern. unfold _extract_information_type.
  fold pattern. cbn [extracted].
  rewrite orb_true_iff, !Nat.ltb_lt, !length_pos_iff_In. split.
  - intros [[x Hx]|[kw Hkw]].
    + left. destruct (entities pattern) as [labels|]; [|contradiction].
      apply in_map_iff in Hx as [ent [_ Hent]].
      apply filter_In in Hent as [Hin Hl]. apply mem_iff_In in Hl.
      now exists labels, ent.
    + right. destruct (keywords pattern) as [kws|]; [|contradiction].
      apply filter_In in Hkw as [Hin Hc]. apply contains_iff_infix in Hc.
      now exists kws, kw.
  - intros [[labels [ent [E [Hin Hl]]]]|[kws [kw [E [Hin Hc]]]]].
    + left. rewrite E. exists (ent_text ent). apply in_map.
      apply filter_In. split; [exact Hin | now apply mem_iff_In].
    + right. rewrite E. exists kw. apply filter_In.
      split; [exact Hin | now apply contains_iff_infix].
Qed.

(** ** Tone analyzer, continued *)

Lemma tone_score_meets_iff_positive (text_lower profile : string) :
  meets_requirement (tone_score text_lower profile) = true <->
  0 < score (tone_score text_lower profile).
Proof.
  unfold tone_score. cbn [meets_requirement score].
  set (indicators := dict_get_default profile [] tone_indicators).
  set (found := filter (fun ind => contains text_lower ind) indicators).
  rewrite Nat.ltb_lt. destruct indicators as [|i inds] eqn:Ei.
  - subst found. simpl. split; [lia | intros H; now apply Qlt_irrefl in H].
  - assert (Hpos : 0 < len (i :: inds)) by (apply len_pos; discriminate).
    split.
    + intros H. apply Qlt_shift_div_l; [exact Hpos|].
      rewrite Qmult_0_l. unfold len. rewrite <- (Zlt_Qlt 0). lia.
    + intros H. destruct found as [|f fs]; [|simpl; lia].
      exfalso. unfold Qdiv in H. change (len (@nil string)) with 0 in H.
      rewrite Qmult_0_l in H. now apply Qlt_irrefl in H.
Qed.

(** X10.  The tone dict has exactly one entry per requested profile (a
    profile requested twice still has one), none for other profiles, and
    in every entry [meets_requirement] holds iff the score is positive. *)
Theorem tone_analysis_has_one_entry_per_profile :
  forall (text : string) (tone_requirements : list string),
    NoDup (map fst (_analyze_tone text tone_requirements))
    /\ (forall profile,
          dict_mem profile (_analyze_tone text tone_requirements) = true <->
          In profile tone_requirements)
    /\ (forall profile ts,
          dict_get profile (_analyze_tone text tone_requirements) = Some ts ->
          (meets_requirement ts = true <-> 0 < score ts)).
Proof.
  intros text reqs. unfold _analyze_tone. split; [|split].
  - apply (fold_set_NoDup (tone_score (lower text))). constructor.
  - intros p. unfold dict_mem.
    rewrite (dict_get_fold_set (tone_score (lower text))), <- mem_iff_In.
    destruct (mem p reqs); simpl; intuition discriminate.
  - intros p ts. rewrite (dict_get_fold_set (tone_score (lower text))).
    destruct (mem p reqs); simpl; [|discriminate].
    intros [= <-]. apply tone_score_meets_iff_positive.
Qed.

(** ** Compliance checker, continued *)

Lemma lower_app (a b : string) :
  lower (a ++ b) = (lower a ++ lower b)%string.
Proof.
  induction a as [|c a IH]; simpl; [reflexivity | now rewrite IH].
Qed.

Lemma append_assoc (a b c : string) :
  ((a ++ b) ++ c)%string = (a ++ b ++ c)%string.
Proof.
  induction a as [|x a IH]; simpl; [reflexivity | now rewrite IH].
Qed.

Lemma append_nil_r (a : string) : (a ++ "")%string = a.
Proof.
  induction a as [|x a IH]; simpl; [reflexivity | now rewrite IH].
Qed.

(** Each joined string occurs in the joined text. *)
Lemma join_infix (sep : string) (xs : list string) (x : string) :
  In x xs -> exists pre post, join sep xs = (pre ++ x ++ post)%string.
Proof.
  induction xs as [|y xs IH]; intros H; [contradiction|].
  destruct H as [->|H].
  - destruct xs as [|z xs].
    + exists "", "". simpl. now rewrite append_nil_r.
    + exists "", (sep ++ join sep (z :: xs))%string. reflexivity.
  - destruct (IH H) as [pre [post E]]. destruct xs as [|z xs]; [contradiction|].
    exists (y ++ sep ++ pre)%string, post.
    change (join sep (y :: z :: xs))
      with (y ++ sep ++ join sep (z :: xs))%string.
    rewrite E. now rewrite !append_assoc.
Qed.

Lemma contains_in_larger (small large needle : string) :
  (exists pre post, large = (pre ++ small ++ post)%string) ->
  contains small needle = true -> contains large needle = true.
Proof.
  intros [pre [post ->]] H.
  apply contains_iff_infix in H as [p [q ->]]. apply contains_iff_infix.
  exists (pre ++ p)%string, (q ++ post)%string. now rewrite !append_assoc.
Qed.

(** X11.  A prohibited phrase that occurs, up to letter case, in the
    response of a single turn is among the violations of the returned
    report, which is then not compliant. *)
Theorem phrase_in_one_turn_is_a_violation :
  forall (self : ConversationValidator) (conversation_data : ConversationData)
         (template : ConversationTemplate) (a : Analysis)
         (turn_data : TranscriptTurn) (phrase : string),
    _analyze_conversation self conversation_data template
    = Ok (AnalysisReport a) ->
    In turn_data (conversation conversation_data) ->
    In phrase (prohibited_content (validation_criteria template)) ->
    contains (lower (ai_response turn_data)) (lower phrase) = true ->
    In phrase (violations (compliance_check a))
    /\ is_compliant (compliance_check a) = false.
Proof.
  intros self d t a td phrase Ha Htd Hp Hc.
  destruct (analyze_conversation_compliance self d t a Ha) as [Hv Hi].
  assert (Hin : In phrase (violations (compliance_check a))).
  { rewrite Hv. unfold _check_compliance. rewrite check_compliance_loop.
    simpl. apply filter_In. split; [exact Hp|].
    apply (contains_in_larger (lower (ai_response td))); [|exact Hc].
    destruct (join_infix " " (map ai_response (conversation d))
                (ai_response td)) as [pre [post E]];
      [now apply in_map|].
    exists (lower pre), (lower post). now rewrite E, !lower_app. }
  split; [exact Hin|]. rewrite Hi.
  destruct (violations (compliance_check a)); [contradiction | reflexivity].
Qed.

(** X12.  An empty prohibited phrase is reported as a violation of every
    transcript: a template that lists it never gets a compliant
    report. *)
Theorem empty_phrase_always_violates :
  forall (self : ConversationValidator) (conversation_data : ConversationData)
         (template : ConversationTemplate) (a : Analysis),
    _analyze_conversation self conversation_data template
    = Ok (AnalysisReport a) ->
    In "" (prohibited_content (validation_criteria template)) ->
    In "" (violations (compliance_check a))
    /\ is_compliant (compliance_check a) = false.
Proof.
  intros self d t a Ha Hp.
  destruct (analyze_conversation_compliance self d t a Ha) as [Hv Hi].
  assert (Hin : In "" (violations (compliance_check a))).
  { rewrite Hv. unfold _check_compliance. rewrite check_compliance_loop.
    simpl. apply filter_In. split; [exact Hp|]. apply contains_nil_needle. }
  split; [exact Hin|]. rewrite Hi.
  destruct (violations (compliance_check a)); [contradiction | reflexivity].
Qed.

(** ** Aggregator, continued *)

Lemma pooled_ignore_results_without_report (results : list TemplateResult) :
  let with_report := fun r =>
    match analysis r with
    | Some (AnalysisReport _) => true
    | _ => false
    end in
  pooled_similarities (filter with_report results)
  = pooled_similarities results
  /\ pooled_violations (filter with_report results)
     = pooled_violations results.
Proof.
  intros with_report. unfold pooled_similarities, pooled_violations.
  induction results as [|r results [IH1 IH2]]; [split; reflexivity|].
  cbn [filter flat_map].
  destruct (analysis r) as [[err|a]|] eqn:E.
  - replace (with_report r) with false
      by (unfold with_report; now rewrite E).
    split; assumption.
  - replace (with_report r) with true
      by (unfold with_report; now rewrite E).
    cbn [flat_map]. rewrite E, IH1, IH2. split; reflexivity.
  - replace (with_report r) with false
      by (unfold with_report; now rewrite E).
    split; assumption.
Qed.

(** X13.  [_generate_recommendations] always returns, with at most two
    lines, and results without a report (error records and failed
    captures) have no influence on them. *)
Theorem recommendations_ignore_results_without_report :
  forall (order : SetOrder) (results : list TemplateResult),
    exists recs,
      _generate_recommendations order results = Ok recs
      /\ (List.length recs <= 2)%nat
      /\ _generate_recommendations order
           (filter
              (fun r =>
                 match analysis r with
                 | Some (AnalysisReport _) => true
                 | _ => false
                 end)
              results)
         = Ok recs.
Proof.
  intros order results.
  destruct (pooled_ignore_results_without_report results) as [E1 E2].
  cbv zeta in E1, E2.
  rewrite !generate_recommendations_closed_form. cbv zeta.
  rewrite E1, E2. eexists. split; [reflexivity|]. split; [|reflexivity].
  destruct (pooled_similarities results) as [|q pool];
    [|destruct (Qltb _ _)];
    destruct (pooled_violations results); simpl; lia.
Qed.

Lemma mapM_execution_times (results : list TemplateResult) (times : list Q) :
  mapM get_execution_time results = Ok times ->
  map Some times = map execution_time results.
Proof.
  revert times; induction results as [|r results IH]; intros times H;
    simpl in H.
  - now injection H as <-.
  - apply bind_ok in H as [q [Hq H]]. apply bind_ok in H as [qs [Hqs H]].
    injection H as <-. unfold get_execution_time in Hq.
    destruct (execution_time r) as [q'|] eqn:E; [|discriminate].
    injection Hq as ->. simpl. now rewrite E, (IH qs Hqs).
Qed.

(** The three outcomes of [generate_report]. *)
Lemma generate_report_outcome (order : SetOrder) (now : string)
  (results : list TemplateResult) :
  ((exists r, In r results /\ execution_time r = None) ->
   generate_report order now results = Raise (KeyError "execution_time"))
  /\ (results = [] -> generate_report order now results = Raise no_data)
  /\ (results <> [] ->
      (forall r, In r results -> execution_time r <> None) ->
      exists times recs,
        mapM get_execution_time results = Ok times
        /\ _generate_recommendations order results = Ok recs
        /\ generate_report order now results
           = Ok {| summary :=
                     {| total_templates_tested := List.length results;
                        successful_conversations :=
                          List.length (filter has_analysis results);
                        avg_execution_time := Qsum times / len times;
                        timestamp := now |};
                   detailed_results := results;
                   recommendations := recs |}).
Proof.
  split; [|split].
  - intros [r [Hin Hr]]. unfold generate_report.
    rewrite (mapM_first_failure get_execution_time
               (KeyError "execution_time")); [reflexivity| |].
    + intros x _. unfold get_execution_time.
      destruct (execution_time x); eauto.
    + exists r. split; [assumption|]. unfold get_execution_time.
      now rewrite Hr.
  - intros ->. reflexivity.
  - intros Hne Hall. unfold generate_report.
    destruct (mapM_all_ok get_execution_time results) as [times [Ht Hlen]].
    { intros r Hr. unfold get_execution_time.
      destruct (execution_time r) as [q|] eqn:E; [eauto|].
      exfalso. exact (Hall r Hr E). }
    destruct (generate_recommendations_returns order results) as [recs Hr].
    exists times, recs. rewrite Ht, Hr. simpl.
    destruct times as [|q times].
    { destruct results; [congruence | discriminate]. }
    repeat split; reflexivity.
Qed.

(** X14.  [generate_report] builds a report exactly for a non-empty
    batch whose items all carry an execution time.  The report then
    counts every item, counts as successful no more than that, keeps the
    items unchanged, averages the execution times of all items, and
    carries the lines of [_generate_recommendations]. *)
Theorem generate_report_returns_iff_all_timed :
  forall (order : SetOrder) (now : string) (results : list TemplateResult),
    ((exists report, generate_report order now results = Ok report) <->
     results <> [] /\ forall r, In r results -> execution_time r <> None)
    /\ forall report,
         generate_report order now results = Ok report ->
         total_templates_tested (summary report) = List.length results
         /\ (successful_conversations (summary report)
             <= total_templates_tested (summary report))%nat
         /\ detailed_results report = results
         /\ _generate_recommendations order results
            = Ok (recommendations report)
         /\ exists times,
              map Some times = map execution_time results
              /\ avg_execution_time (summary report)
                 = Qsum times / len times.
Proof.
  intros order now results.
  destruct (generate_report_outcome order now results) as [Hkey [Hnil Hok]].
  assert (Hiff : forall report,
             generate_report order now results = Ok report ->
             results <> [] /\
             forall r, In r results -> execution_time r <> None).
  { intros report H. split.
    - intros E. rewrite (Hnil E) in H. discriminate.
    - intros r Hin E. rewrite Hkey in H; [discriminate|]. now exists r. }
  split.
  - split.
    + intros [report H]. now apply (Hiff report).
    + intros [Hne Hall].
      destruct (Hok Hne Hall) as [times [recs [_ [_ H]]]]. eauto.
  - intros report H. destruct (Hiff report H) as [Hne Hall].
    destruct (Hok Hne Hall) as [times [recs [Ht [Hr H']]]].
    rewrite H' in H. injection H as <-. simpl.
    split; [reflexivity|]. split; [apply filter_length_le|].
    split; [reflexivity|]. split; [exact Hr|].
    exists times. split; [now apply mapM_execution_times | reflexivity].
Qed.

(** ** The loop of [main], continued *)

Section MainLoop.

Variable self : ConversationValidator.

(** The record [main] appends for one template file. *)
Let record (f : TemplateFile) : TemplateResult :=
  match try_template self f with
  | Ok result => result
  | Raise e =>
      {| r_template := file_name f;
         execution_time := None;
         conversation_data := None;
         analysis := None;
         r_error := Some (str_of_exn e);
         r_timestamp := finished f |}
  end.

Lemma main_body_appends (results : list TemplateResult) (f : TemplateFile) :
  main_body self results f = results ++ [record f].
Proof.
  unfold main_body, record, try_template, main_step.
  destruct (load f) as [template|e]; simpl; [|reflexivity].
  destruct (execute_conversation_template self _ _ _ template);
    reflexivity.
Qed.

Lemma main_loop_records (files : list TemplateFile) :
  main_loop self files = map record files.
Proof.
  unfold main_loop.
  assert (H : forall acc,
             fold_left (main_body self) files acc = acc ++ map record files).
  { induction files as [|f files IH]; intros acc; simpl.
    - now rewrite app_nil_r.
    - rewrite IH, main_body_appends. now rewrite <- app_assoc. }
  apply (H []).
Qed.

Lemma outcome_ok_record (f : TemplateFile) (r : TemplateResult) :
  try_template self f = Ok r ->
  execution_time r = Some (elapsed f)
  /\ exists an, analysis r = Some an.
Proof.
  unfold try_template, execute_conversation_template. intros H.
  apply bind_ok in H as [template [_ H]].
  apply bind_ok in H as [cd [_ H]]. apply bind_ok in H as [an [_ H]].
  injection H as <-. simpl. eauto.
Qed.

Lemma record_timed_iff (f : TemplateFile) :
  execution_time (record f) <> None <-> exists r, try_template self f = Ok r.
Proof.
  unfold record. destruct (try_template self f) as [r|e] eqn:E.
  - destruct (outcome_ok_record f r E) as [Ht _]. rewrite Ht.
    split; [eauto | discriminate].
  - simpl. split; [congruence | intros [r H]; discriminate].
Qed.

Lemma record_has_analysis (f : TemplateFile) :
  (exists r, try_template self f = Ok r) -> has_analysis (record f) = true.
Proof.
  intros [r E]. unfold record, has_analysis. rewrite E.
  destruct (outcome_ok_record f r E) as [_ [an ->]]. reflexivity.
Qed.

End MainLoop.

Lemma pooled_of_failed_captures (results : list TemplateResult) :
  (forall r, In r results ->
             exists err, analysis r = Some (ExecutionFailure err)) ->
  pooled_similarities results = [] /\ pooled_violations results = [].
Proof.
  unfold pooled_similarities, pooled_violations.
  induction results as [|r results IH]; intros H; [split; reflexivity|].
  destruct (H r (or_introl eq_refl)) as [err E]. simpl. rewrite E. simpl.
  apply IH. intros r' Hr'. apply H. now right.
Qed.

(** X15.  [main] appends one record per template file.  It returns
    early exactly when there is no file; as soon as loading, running or
    analyzing one template raises, the final call of [generate_report]
    raises [KeyError('execution_time')], so no report is produced for the
    batch; when no template raises, the report is produced and counts
    every file, each one as successful. *)
Theorem main_reports_iff_no_template_raised :
  forall (self : ConversationValidator) (order : SetOrder) (now : string)
         (template_files : list TemplateFile),
    List.length (main_loop self template_files) = List.length template_files
    /\ (main self order now template_files = None <-> template_files = [])
    /\ ((exists f e, In f template_files /\ try_template self f = Raise e) ->
        main self order now template_files
        = Some (Raise (KeyError "execution_time")))
    /\ (template_files <> [] ->
        (forall f, In f template_files ->
                   exists r, try_template self f = Ok r) ->
        exists report,
          main self order now template_files = Some (Ok report)
          /\ total_templates_tested (summary report)
             = List.length template_files
          /\ successful_conversations (summary report)
             = List.length template_files).
Proof.
  intros self order now files.
  pose proof (main_loop_records self files) as Hrec.
  split; [rewrite Hrec; apply length_map|]. split; [|split].
  - unfold main. destruct files; split; congruence.
  - intros [f [e [Hin Hf]]]. unfold main.
    destruct files as [|f0 files]; [contradiction|]. f_equal.
    apply (generate_report_outcome order now). rewrite Hrec.
    eexists. split; [apply in_map; exact Hin|]. cbv beta.
    now rewrite Hf.
  - intros Hne Hall. unfold main.
    destruct files as [|f0 files'] eqn:Ef; [congruence|]. rewrite <- Ef in *.
    destruct (generate_report_outcome order now (main_loop self files))
      as [_ [_ Hok]].
    destruct Hok as [times [recs [_ [_ H]]]].
    + rewrite Hrec, Ef. discriminate.
    + rewrite Hrec. intros r Hr. apply in_map_iff in Hr as [f [<- Hf]].
      apply (record_timed_iff self f). now apply Hall.
    + eexists. split; [now rewrite H|]. simpl.
      assert (Hlen : List.length (main_loop self files) = List.length files)
        by (rewrite Hrec; apply length_map).
      split; [exact Hlen|]. rewrite <- Hlen. f_equal.
      apply forallb_filter_id, forallb_forall.
      intros r Hr. rewrite Hrec in Hr. apply in_map_iff in Hr as [f [<- Hf]].
      apply (record_has_analysis self f). now apply Hall.
Qed.

(** X16.  A batch in which every capture failed ([success = False]) is
    still reported with every template counted as a successful
    conversation, and with no recommendation. *)
Theorem failed_captures_count_as_successful :
  forall (self : ConversationValidator) (order : SetOrder) (now : string)
         (template_files : list TemplateFile),
    template_files <> [] ->
    (forall f, In f template_files ->
               exists template cd,
                 load f = Ok template /\ run f template = Ok cd /\
                 success cd = false) ->
    exists report,
      main self order now template_files = Some (Ok report)
      /\ total_templates_tested (summary report)
         = List.length template_files
      /\ successful_conversations (summary report)
         = List.length template_files
      /\ recommendations report = [].
Proof.
  intros self order now files Hne Hall.
  assert (Htry : forall f, In f files ->
             exists r, try_template self f = Ok r /\
                       execution_time r <> None /\
                       analysis r
                       = Some (ExecutionFailure
                                 "Conversation execution failed")).
  { intros f Hf. destruct (Hall f Hf) as [template [cd [Hl [Hr Hs]]]].
    unfold try_template, execute_conversation_template, _analyze_conversation.
    rewrite Hl. simpl. rewrite Hr. simpl. rewrite Hs. simpl.
    eexists. split; [reflexivity|]. simpl. split; [discriminate | reflexivity]. }
  pose proof (main_loop_records self files) as Hrec.
  assert (Hin : forall r, In r (main_loop self files) ->
             execution_time r <> None /\
             analysis r = Some (ExecutionFailure
                                  "Conversation execution failed")).
  { rewrite Hrec. intros r Hr. apply in_map_iff in Hr as [f [<- Hf]].
    destruct (Htry f Hf) as [r [E [Ht Ha]]]. rewrite E. now split. }
  destruct (generate_report_outcome order now (main_loop self files))
    as [_ [_ Hok]].
  destruct Hok as [times [recs [_ [Hrecs H]]]].
  - rewrite Hrec. destruct files; [congruence | discriminate].
  - intros r Hr. now apply Hin.
  - unfold main. destruct files as [|f0 files'] eqn:Ef; [congruence|].
    rewrite <- Ef in *. eexists. split; [now rewrite H|]. simpl.
    assert (Hlen : List.length (main_loop self files) = List.length files)
      by (rewrite Hrec; apply length_map).
    split; [exact Hlen|]. split.
    + rewrite <- Hlen. f_equal. apply forallb_filter_id, forallb_forall.
      intros r Hr. unfold has_analysis. destruct (Hin r Hr) as [_ ->].
      reflexivity.
    + rewrite generate_recommendations_closed_form in Hrecs. cbv zeta in Hrecs.
      destruct (pooled_of_failed_captures (main_loop self files)) as [P1 P2].
      { intros r Hr. destruct (Hin r Hr) as [_ E]. eauto. }
      rewrite P1, P2 in Hrecs. simpl in Hrecs. now injection Hrecs as <-.
Qed.

(** ** The human-readable summary *)

Lemma foldM_skip {A S : Type} (body : S -> A -> exc S) (keep : A -> bool)
  (xs : list A) :
  (forall s x, keep x = false -> body s x = Ok s) ->
  forall s, foldM body xs s = foldM body (filter keep xs) s.
Proof.
  intros Hskip. induction xs as [|x xs IH]; intros s; simpl; [reflexivity|].
  destruct (keep x) eqn:K; simpl.
  - destruct (body s x); simpl; [apply IH | reflexivity].
  - rewrite (Hskip s x K). simpl. apply IH.
Qed.

Lemma summary_step_returns (summary : string) (result : TemplateResult) :
  execution_time result <> None ->
  exists summary', summary_step summary result = Ok summary'.
Proof.
  intros Ht. unfold summary_step, get_execution_time.
  destruct (analysis result) as [an|]; [|eauto].
  destruct (execution_time result) as [t|]; [|congruence]. simpl.
  destruct (get_semantic_similarity an) as [|p sims]; simpl;
    destruct (get_compliance_check an); eauto.
Qed.

Lemma summary_loop_returns (results : list TemplateResult) :
  (forall r, In r results -> execution_time r <> None) ->
  forall summary, exists summary',
    foldM summary_step results summary = Ok summary'.
Proof.
  induction results as [|r results IH]; intros H summary; simpl; [eauto|].
  destruct (summary_step_returns summary r (H r (or_introl eq_refl)))
    as [s1 H1].
  rewrite H1. simpl. apply IH. intros r' Hr'. apply H. now right.
Qed.

(** X17.  Once [generate_report] has built the report, rendering its
    summary raises nothing: every item it renders has an execution time,
    and the mean of the turn similarities is taken only when there is
    one. *)
Theorem summary_of_a_built_report_is_rendered :
  forall (order : SetOrder) (now : string) (results : list TemplateResult)
         (report : Report),
    generate_report order now results = Ok report ->
    exists text, _generate_summary_report report = Ok text.
Proof.
  intros order now results report H.
  destruct (generate_report_outcome order now results) as [Hkey [Hnil Hok]].
  assert (Hne : results <> []).
  { intros E. rewrite (Hnil E) in H. discriminate. }
  assert (Hall : forall r, In r results -> execution_time r <> None).
  { intros r Hin E. rewrite Hkey in H; [discriminate|]. now exists r. }
  destruct (Hok Hne Hall) as [times [recs [_ [_ H']]]].
  rewrite H' in H. injection H as <-.
  unfold _generate_summary_report. cbv zeta.
  cbn [detailed_results]. now apply summary_loop_returns.
Qed.

(** X18.  The summary has no trace of the items without analysis (the
    error records): it is the summary of the report whose detailed results
    are only the items with an analysis. *)
Theorem summary_skips_items_without_analysis :
  forall (report : Report),
    _generate_summary_report report
    = _generate_summary_report
        {| summary := summary report;
           detailed_results := filter has_analysis (detailed_results report);
           recommendations := recommendations report |}.
Proof.
  intros report. unfold _generate_summary_report. cbv zeta.
  cbn [summary detailed_results recommendations].
  apply foldM_skip. intros s r K. unfold summary_step.
  unfold has_analysis in K. destruct (analysis r); [discriminate|reflexivity].
Qed.

(* ================================================================= *)
(** * Concrete runs, continued *)

Lemma steady_validator_cosine_bounds :
  forall x y, 0 <= cosine steady_validator x y <= 1.
Proof.
  intros x y. simpl. destruct (x <=? y)%nat; split; discriminate.
Defined.

Lemma conversation_turns_have_no_variable_witness :
  In "I am John Smith from San Francisco, California."
    (conversation_turns variables_template)
  /\ contains "I am John Smith from San Francisco, California." "{name}"
     = false.
Proof.
  split; [now left|].
  destruct (proj2 (conversation_turns_have_no_variable variables_template)
              "I am John Smith from San Francisco, California.")
    as [H _]; [now left | exact H].
Defined.

Lemma substitute_variables_keeps_plain_text_witness :
  contains "I was in a car accident" "{name}" = false
  /\ substitute_variables "I was in a car accident"
     = "I was in a car accident".
Proof.
  split; [reflexivity|].
  apply substitute_variables_keeps_plain_text; reflexivity.
Defined.

Lemma similarity_scores_are_keyed_by_theme_witness :
  exists scores,
    _calculate_semantic_similarity steady_validator "I'm sorry."
      ["empathy"; "legal disclaimer"; "empathy"] = Ok scores
    /\ NoDup (map fst scores)
    /\ (List.length scores <= 3)%nat
    /\ dict_mem "legal disclaimer" scores = true.
Proof.
  destruct (calculate_semantic_similarity_returns steady_validator
              steady_validator_answers "I'm sorry."
              ["empathy"; "legal disclaimer"; "empathy"]) as [scores H].
  exists scores. split; [exact H|].
  destruct (similarity_scores_are_keyed_by_theme steady_validator _ _ _ H)
    as [N [_ [L K]]].
  split; [exact N|]. split; [exact L|].
  apply (K steady_validator_answers). right. now left.
Defined.

Lemma similarity_entry_is_the_last_turns_witness :
  exists a scores,
    _analyze_conversation steady_validator
      (captured [greeting_turn; stray_turn]) intake_template
    = Ok (AnalysisReport a)
    /\ dict_get (turn_key 1) (semantic_similarity a)
       = Some {| expected_themes := ["empathy"; "legal disclaimer"];
                 similarity_scores := scores;
                 avg_similarity :=
                   match scores with
                   | [] => 0
                   | _ :: _ =>
                       Qsum (dict_values scores) / len (dict_values scores)
                   end |}.
Proof.
  destruct (analyze_conversation_returns steady_validator
              (captured [greeting_turn; stray_turn]) intake_template
              steady_validator_answers eq_refl) as [a Ha]; [discriminate|].
  destruct (similarity_entry_is_the_last_turns steady_validator _ _ a
              [] [stray_turn] greeting_turn opening_turn Ha eq_refl eq_refl)
    as [scores [_ Hg]].
  - intros td [<-|[]]. discriminate.
  - exists a, scores. split; [exact Ha | exact Hg].
Defined.

Lemma similarity_scores_stay_in_unit_interval_witness :
  exists a,
    _analyze_conversation steady_validator
      (captured [greeting_turn; stray_turn]) intake_template
    = Ok (AnalysisReport a)
    /\ forall key entry,
         In (key, entry) (semantic_similarity a) ->
         0 <= avg_similarity entry <= 1.
Proof.
  destruct (analyze_conversation_returns steady_validator
              (captured [greeting_turn; stray_turn]) intake_template
              steady_validator_answers eq_refl) as [a Ha]; [discriminate|].
  exists a. split; [exact Ha|]. intros key entry Hin.
  apply (similarity_scores_stay_in_unit_interval steady_validator _ _ a
           steady_validator_cosine_bounds Ha key entry Hin).
Defined.

Lemma analysis_without_themes_needs_no_embedding_witness :
  exists a,
    _analyze_conversation failing_validator (captured [greeting_turn])
      variables_template
    = Ok (AnalysisReport a).
Proof.
  destruct (analysis_without_themes_needs_no_embedding failing_validator
              (captured [greeting_turn]) variables_template eq_refl)
    as [a [Ha _]].
  - discriminate.
  - intros tt [<-|[]]. reflexivity.
  - now exists a.
Defined.

Lemma performance_metrics_are_consistent_witness :
  exists a,
    _analyze_conversation steady_validator
      (captured [greeting_turn; stray_turn]) intake_template
    = Ok (AnalysisReport a)
    /\ total_turns (performance_metrics a) = 2%nat
    /\ avg_response_time_ms (performance_metrics a)
       <= inject_Z (max_response_time_ms (performance_metrics a)).
Proof.
  destruct (analyze_conversation_returns steady_validator
              (captured [greeting_turn; stray_turn]) intake_template
              steady_validator_answers eq_refl) as [a Ha]; [discriminate|].
  exists a. split; [exact Ha|].
  destruct (performance_metrics_are_consistent steady_validator _ _ a Ha)
    as [Ht [_ [_ [_ [Havg _]]]]].
  split; [exact Ht | exact Havg].
Defined.

Lemma report_sections_cover_the_full_text_witness :
  exists a,
    _analyze_conversation steady_validator
      (captured [greeting_turn; stray_turn]) intake_template
    = Ok (AnalysisReport a)
    /\ dict_get "client_name" (information_extraction a)
       = Some (_extract_information_type steady_validator
                 "I'm sorry. The Client Was AT FAULT, my name is Ann. You are welcome, goodbye."
                 "client_name")
    /\ dict_get "location" (information_extraction a) = None.
Proof.
  destruct (analyze_conversation_returns steady_validator
              (captured [greeting_turn; stray_turn]) intake_template
              steady_validator_answers eq_refl) as [a Ha]; [discriminate|].
  exists a. split; [exact Ha|].
  destruct (report_sections_cover_the_full_text steady_validator _ _ a Ha)
    as [Hget _].
  split; [exact (Hget "client_name") | exact (Hget "location")].
Defined.

Lemma extracted_iff_entity_or_keyword_witness :
  extracted
    (_extract_information_type failing_validator "There was a CRASH."
       "accident_details") = true.
Proof.
  apply (extracted_iff_entity_or_keyword failing_validator
           "There was a CRASH." "accident_details").
  right. exists ["accident"; "crash"; "collision"; "hit"], "crash".
  split; [reflexivity|]. split; [right; now left|].
  exists "there was a ", ".". reflexivity.
Defined.

Lemma tone_analysis_has_one_entry_per_profile_witness :
  dict_mem "empathetic"
    (_analyze_tone "I am sorry." ["empathetic"; "assertive"; "empathetic"])
  = true
  /\ dict_mem "professional"
       (_analyze_tone "I am sorry." ["empathetic"; "assertive"; "empathetic"])
     = false.
Proof.
  destruct (tone_analysis_has_one_entry_per_profile "I am sorry."
              ["empathetic"; "assertive"; "empathetic"]) as [_ [K _]].
  split.
  - apply K. now left.
  - destruct (dict_mem "professional" _) eqn:E; [|reflexivity].
    apply K in E. destruct E as [E|[E|[E|[]]]]; discriminate.
Defined.

Lemma phrase_in_one_turn_is_a_violation_witness :
  exists a,
    _analyze_conversation steady_validator
      (captured [greeting_turn; stray_turn]) intake_template
    = Ok (AnalysisReport a)
    /\ In "At Fault" (violations (compliance_check a))
    /\ is_compliant (compliance_check a) = false.
Proof.
  destruct (analyze_conversation_returns steady_validator
              (captured [greeting_turn; stray_turn]) intake_template
              steady_validator_answers eq_refl) as [a Ha]; [discriminate|].
  exists a. split; [exact Ha|].
  apply (phrase_in_one_turn_is_a_violation steady_validator _ _ a
           greeting_turn "At Fault" Ha).
  - now left.
  - now left.
  - reflexivity.
Defined.

Lemma empty_phrase_always_violates_witness :
  exists a,
    _analyze_conversation steady_validator (captured [stray_turn])
      variables_template
    = Ok (AnalysisReport a)
    /\ is_compliant (compliance_check a) = false.
Proof.
  destruct (analyze_conversation_returns steady_validator
              (captured [stray_turn]) variables_template
              steady_validator_answers eq_refl) as [a Ha]; [discriminate|].
  exists a. split; [exact Ha|].
  destruct (empty_phrase_always_violates steady_validator _ _ a Ha)
    as [_ H]; [now left | exact H].
Defined.

Lemma recommendations_ignore_results_without_report_witness :
  exists recs,
    _generate_recommendations list_order batch_with_failure = Ok recs
    /\ (List.length recs <= 2)%nat.
Proof.
  destruct (recommendations_ignore_results_without_report list_order
              batch_with_failure) as [recs [H [L _]]].
  exists recs. split; [exact H | exact L].
Defined.

Lemma generate_report_returns_iff_all_timed_witness :
  exists report,
    generate_report list_order "2025-01-01T00:00:00"
      [scored_result [3 # 10] []; scored_result [] ["at fault"]]
    = Ok report.
Proof.
  apply (proj1 (generate_report_returns_iff_all_timed list_order
                  "2025-01-01T00:00:00"
                  [scored_result [3 # 10] []; scored_result [] ["at fault"]])).
  split; [discriminate|].
  intros r [<-|[<-|[]]]; discriminate.
Defined.

Lemma main_reports_iff_no_template_raised_witness :
  main steady_validator list_order "2025-01-01T00:07:00"
    [good_file; broken_file]
  = Some (Raise (KeyError "execution_time"))
  /\ exists report,
       main steady_validator list_order "2025-01-01T00:07:00"
         [good_file; failed_capture_file]
       = Some (Ok report)
       /\ total_templates_tested (summary report) = 2%nat.
Proof.
  split.
  - apply (main_reports_iff_no_template_raised steady_validator list_order
             "2025-01-01T00:07:00" [good_file; broken_file]).
    exists broken_file, (KeyError "case_type").
    split; [right; now left | reflexivity].
  - destruct (main_reports_iff_no_template_raised steady_validator list_order
                "2025-01-01T00:07:00" [good_file; failed_capture_file])
      as [_ [_ [_ H]]].
    destruct H as [report [Hm [Ht _]]].
    + discriminate.
    + intros f [<-|[<-|[]]]; eexists; vm_compute; reflexivity.
    + exists report. split; [exact Hm | exact Ht].
Defined.

Lemma failed_captures_count_as_successful_witness :
  exists report,
    main failing_validator list_order "2025-01-01T00:07:00"
      [failed_capture_file]
    = Some (Ok report)
    /\ successful_conversations (summary report) = 1%nat
    /\ recommendations report = [].
Proof.
  destruct (failed_captures_count_as_successful failing_validator list_order
              "2025-01-01T00:07:00" [failed_capture_file])
    as [report [Hm [_ [Hs Hr]]]].
  - discriminate.
  - intros f [<-|[]]. exists variables_template, capture_failed.
    repeat split; reflexivity.
  - exists report. split; [exact Hm|]. split; [exact Hs | exact Hr].
Defined.

Lemma summary_of_a_built_report_is_rendered_witness :
  exists report text,
    generate_report list_order "2025-01-01T00:00:00"
      [scored_result [3 # 10; 4 # 10] ["at fault"]]
    = Ok report
    /\ _generate_summary_report report = Ok text.
Proof.
  destruct (generate_report_outcome list_order "2025-01-01T00:00:00"
              [scored_result [3 # 10; 4 # 10] ["at fault"]])
    as [_ [_ Hok]].
  destruct Hok as [times [recs [_ [_ H]]]];
    [discriminate | intros r [<-|[]]; discriminate |].
  destruct (summary_of_a_built_report_is_rendered _ _ _ _ H) as [text Ht].
  eexists. exists text. split; [exact H | exact Ht].
Defined.

Lemma summary_skips_items_without_analysis_witness :
  _generate_summary_report
    {| summary :=
         {| total_templates_tested := 2;
            successful_conversations := 1;
            avg_execution_time := 2;
            timestamp := "2025-01-01T00:06:00" |};
       detailed_results := batch_with_failure;
       recommendations := [] |}
  = _generate_summary_report
      {| summary :=
           {| total_templates_tested := 2;
              successful_conversations := 1;
              avg_execution_time := 2;
              timestamp := "2025-01-01T00:06:00" |};
         detailed_results := filter has_analysis batch_with_failure;
         recommendations := [] |}.
Proof.
  apply (summary_skips_items_without_analysis
           {| summary :=
                {| total_templates_tested := 2;
                   successful_conversations := 1;
                   avg_execution_time := 2;
                   timestamp := "2025-01-01T00:06:00" |};
              detailed_results := batch_with_failure;
              recommendations := [] |}).
Defined.
